(** * pika-plot test-data generators: a shallow embedding and its properties

    The development follows the two generator scripts of the repository:

    - [test_data/generate_large_dataset.py]  (module [LargeDataset]):
      grouped records with controlled duplicates, shuffled, written by
      [csv.DictWriter];
    - [fresh/test_data/generate_large_test_data.py] (module [LargeTestData]):
      33-column rows with null sentinels, written by [csv.writer] together
      with periodic empty rows and garbage rows.

    Conventions of the embedding.

    - Python [int] is [Z]; [str] is [string]; [None]-able values are [option].
    - Python [float] is idealised as an exact rational ([Q]): draws are
      rationals and arithmetic on them is exact.
    - The two random sources ([random] and [numpy.random]) are global mutable
      generators in the scripts; here their state is passed explicitly
      through a state monad.  The generators themselves are library code and
      are taken as an interface ([PyRandom], [NumpyRandom]) with the range
      guarantees their documentation gives.  [Scripted] is a replaying
      instance used to run the model on concrete draws.
    - The wall clock read by [datetime.datetime.now()] is an explicit
      argument: the ordinal of the date the clock shows during the run. *)

From Stdlib Require Import ZArith QArith Qround Qabs Lia Ascii.
From stdpp Require Import base list strings pretty gmap sorting.

Open Scope Z_scope.

(** ** A state monad for the random sources *)

Definition State (S A : Type) : Type := S → A * S.

Definition ret {S A : Type} (a : A) : State S A := λ s, (a, s).

Definition bind {S A B : Type} (m : State S A) (k : A → State S B) : State S B :=
  λ s, let (a, s') := m s in k a s'.

Notation "'let*' x := m 'in' k" := (bind m (λ x, k))
  (at level 10, x name, m at level 100, k at level 200, only parsing).
Notation "'let*' ' p := m 'in' k" := (bind m (λ p, k))
  (at level 10, p pattern, m at level 100, k at level 200, only parsing).

(** ** Python built-ins used by the scripts *)

Module Py.

(** [x < y] on floats. *)
Definition Qltb (x y : Q) : bool := negb (Qle_bool y x).

#[global] Instance Q_inhabited : Inhabited Q := populate 0%Q.

(** [''.join(l)]: what successive [write] calls leave in a file. *)
Fixpoint concat_strings (l : list string) : string :=
  match l with
  | [] => ""
  | x :: rest => x +:+ concat_strings rest
  end.

(** [str(n)] for an [int]. *)
Definition str (n : Z) : string := pretty n.

(** [int(x)] for a float: truncation towards zero. *)
Definition int (x : Q) : Z := Z.quot (Qnum x) (Z.pos (Qden x)).

(** Left padding with ["0"] up to width [w]. *)
Fixpoint zeros (k : nat) : string :=
  match k with
  | O => ""
  | S k' => "0" +:+ zeros k'
  end.

Definition zfill (w : nat) (s : string) : string :=
  zeros (w - String.length s) +:+ s.

(** The format specs [:02d] and [:03d]: sign first, then zero padding. *)
Definition format_0d (w : nat) (n : Z) : string :=
  if n <? 0 then "-" +:+ zfill (w - 1) (pretty (- n)) else zfill w (pretty n).

(** Nearest integer, ties to even. *)
Definition round_half_even (x : Q) : Z :=
  let n := Qnum x in
  let d := Z.pos (Qden x) in
  let fl := n / d in
  let r := n mod d in
  if 2 * r <? d then fl
  else if d <? 2 * r then fl + 1
  else if Z.even fl then fl else fl + 1.

(** [x] rounded to [digits] decimals, as the integer number of units
    [10^-digits] of its absolute value. *)
Definition scaled (digits : nat) (x : Q) : Z :=
  round_half_even (Qabs x * inject_Z (10 ^ Z.of_nat digits)).

(** Fixed-point rendering of a number of units [10^-digits]. *)
Definition fixed (digits : nat) (neg : bool) (m : Z) : string :=
  let scale := 10 ^ Z.of_nat digits in
  (if neg then "-" else "") +:+ pretty (m / scale) +:+ "." +:+
  zfill digits (pretty (m mod scale)).

(** The format specs [:.2f] and [:.4f]. *)
Definition format_f (digits : nat) (x : Q) : string :=
  fixed digits (negb (Qle_bool 0 x)) (scaled digits x).

(** [round(x, 1)]. *)
Definition round1 (x : Q) : Q :=
  (if Qle_bool 0 x then 1 else -1) * (inject_Z (scaled 1 x) / 10).

(** [str(x)] for a float that is a multiple of 0.1, the only floats
    [LargeDataset] writes. *)
Definition str_float (x : Q) : string := format_f 1 x.

(** *** [datetime.date]: proleptic Gregorian ordinals, as in the library *)

Definition is_leap (y : Z) : bool :=
  (y mod 4 =? 0) && (negb (y mod 100 =? 0) || (y mod 400 =? 0)).

Definition days_in_month (y m : Z) : Z :=
  if m =? 2 then (if is_leap y then 29 else 28)
  else if (m =? 4) || (m =? 6) || (m =? 9) || (m =? 11) then 30
  else 31.

(** [_DAYS_BEFORE_MONTH[m]], for a non-leap year. *)
Definition DAYS_BEFORE_MONTH (m : Z) : Z :=
  match m with
  | 1 => 0 | 2 => 31 | 3 => 59 | 4 => 90 | 5 => 120 | 6 => 151
  | 7 => 181 | 8 => 212 | 9 => 243 | 10 => 273 | 11 => 304 | 12 => 334
  | _ => 0
  end.

Definition days_before_year (y : Z) : Z :=
  let y' := y - 1 in y' * 365 + y' / 4 - y' / 100 + y' / 400.

Definition days_before_month (y m : Z) : Z :=
  DAYS_BEFORE_MONTH m + (if (2 <? m) && is_leap y then 1 else 0).

Definition ymd2ord (y m d : Z) : Z :=
  days_before_year y + days_before_month y m + d.

Definition ord2ymd (n0 : Z) : Z * Z * Z :=
  let n := n0 - 1 in
  let n400 := n / 146097 in let n := n mod 146097 in
  let year := n400 * 400 + 1 in
  let n100 := n / 36524 in let n := n mod 36524 in
  let n4 := n / 1461 in let n := n mod 1461 in
  let n1 := n / 365 in let n := n mod 365 in
  let year := year + n100 * 100 + n4 * 4 + n1 in
  if (n1 =? 4) || (n100 =? 4) then (year - 1, 12, 31)
  else
    let leapyear := (n1 =? 3) && (negb (n4 =? 24) || (n100 =? 3)) in
    let month := Z.shiftr (n + 50) 5 in
    let preceding :=
      DAYS_BEFORE_MONTH month + (if (2 <? month) && leapyear then 1 else 0) in
    if n <? preceding then
      let month' := month - 1 in
      let preceding' :=
        preceding - (days_in_month 1 month'
                     + (if (month' =? 2) && leapyear then 1 else 0)) in
      (year, month', n - preceding' + 1)
    else (year, month, n - preceding + 1).

(** A [date] is its ordinal; [d + timedelta(days=k)] is [d + k] and
    [(e - d).days] is [e - d]. *)
Definition date (y m d : Z) : Z := ymd2ord y m d.

(** [d.strftime('%Y-%m-%d')], for the four-digit years the scripts meet. *)
Definition strftime_Ymd (d : Z) : string :=
  let '(y, m, dd) := ord2ymd d in
  format_0d 4 y +:+ "-" +:+ format_0d 2 m +:+ "-" +:+ format_0d 2 dd.

End Py.

(** ** The [csv] writer (default dialect: comma, minimal quoting, CRLF) *)

Module Csv.

Definition dquote : ascii := ascii_of_nat 34.
Definition CR : ascii := ascii_of_nat 13.
Definition LF : ascii := ascii_of_nat 10.

Definition special (c : ascii) : bool :=
  Ascii.eqb c ","%char || Ascii.eqb c dquote || Ascii.eqb c CR || Ascii.eqb c LF.

Fixpoint needs_quotes (s : string) : bool :=
  match s with
  | EmptyString => false
  | String c s' => special c || needs_quotes s'
  end.

Fixpoint double_quotes (s : string) : string :=
  match s with
  | EmptyString => EmptyString
  | String c s' =>
      if Ascii.eqb c dquote then String dquote (String dquote (double_quotes s'))
      else String c (double_quotes s')
  end.

Definition field (s : string) : string :=
  if needs_quotes s
  then String dquote (double_quotes s +:+ String dquote EmptyString)
  else s.

Fixpoint join (sep : string) (l : list string) : string :=
  match l with
  | [] => ""
  | [x] => x
  | x :: rest => x +:+ sep +:+ join sep rest
  end.

Definition lineterminator : string := String CR (String LF EmptyString).

(** The text [writer.writerow(row)] appends.  A row made of one empty
    field is written as a pair of quotes. *)
Definition writerow (row : list string) : string :=
  match row with
  | [EmptyString] => String dquote (String dquote EmptyString)
  | _ => join "," (field <$> row)
  end +:+ lineterminator.

End Csv.

(** ** The random sources *)

(** The [random] module.  [random_random] is [random.random()];
    [randbelow n] is the private [_randbelow(n)] every integer-valued
    function of the module is built on. *)
Class PyRandom (W : Type) := {
  random_random : State W Q;
  randbelow : N → State W N;
  random_random_range : ∀ w, (0 <= fst (random_random w))%Q ∧ (fst (random_random w) < 1)%Q;
  randbelow_lt : ∀ n w, (0 < n)%N → (fst (randbelow n w) < n)%N
}.

(** [numpy.random]: the three distributions the scripts draw from. *)
Class NumpyRandom (W : Type) := {
  np_random_normal : Q → Q → State W Q;
  np_random_lognormal : Q → Q → State W Q;
  np_random_exponential : Q → State W Q;
  np_random_exponential_nonneg : ∀ scale w, (0 <= fst (np_random_exponential scale w))%Q
}.

Module Random.
Section Derived.
Context {W : Type} `{PyRandom W}.

(** [random.choice(seq)]: [seq[_randbelow(len(seq))]].  On an empty
    sequence Python raises; every call site passes a non-empty one. *)
Definition choice {A : Type} `{Inhabited A} (seq : list A) : State W A :=
  let* i := randbelow (N.of_nat (length seq)) in
  ret (seq !!! N.to_nat i).

(** [random.randint(a, b)]: [a + _randbelow(b - a + 1)]. *)
Definition randint (a b : Z) : State W Z :=
  let* k := randbelow (Z.to_N (b - a + 1)) in
  ret (a + Z.of_N k).

(** [random.uniform(a, b)]: [a + (b - a) * random()]. *)
Definition uniform (a b : Q) : State W Q :=
  let* u := random_random in
  ret (a + (b - a) * u)%Q.

(** [x[i], x[j] = x[j], x[i]]. *)
Definition swap {A : Type} (x : list A) (i j : nat) : list A :=
  match x !! i, x !! j with
  | Some a, Some b => <[i := b]> (<[j := a]> x)
  | _, _ => x
  end.

(** [random.shuffle(x)]:
    [for i in reversed(range(1, len(x))): j = _randbelow(i + 1); swap]. *)
Fixpoint shuffle_from {A : Type} (i : nat) (x : list A) : State W (list A) :=
  match i with
  | O => ret x
  | S i' =>
      let* j := randbelow (N.of_nat (i + 1)) in
      shuffle_from i' (swap x i (N.to_nat j))
  end.

Definition shuffle {A : Type} (x : list A) : State W (list A) :=
  shuffle_from (length x - 1) x.

End Derived.
End Random.


(** ** [fresh/test_data/generate_large_test_data.py] *)

Module LargeTestData.

Definition COUNTRIES : list string :=
  ["US"; "CA"; "UK"; "DE"; "FR"; "AU"; "JP"; "IT"; "BR"; "ES"; "NL"; "SE";
   "NO"; "DK"; "FI"].

Definition DEVICE_TYPES : list string :=
  ["iphone"; "android"; "desktop"; "tablet"; "smartwatch"].

Definition OS_VERSIONS : gmap string (list string) :=
  list_to_map
    [("iphone", ["iOS 16.0"; "iOS 16.1"; "iOS 16.2"; "iOS 16.3"; "iOS 16.4";
                 "iOS 16.5"; "iOS 16.6"; "iOS 17.0"; "iOS 17.1"; "iOS 17.2"]);
     ("android", ["Android 12"; "Android 13"; "Android 14"]);
     ("desktop", ["Windows 10"; "Windows 11"; "MacOS 13"; "MacOS 14";
                  "Ubuntu 22.04"; "Ubuntu 23.04"]);
     ("tablet", ["iPadOS 16"; "iPadOS 17"; "Android 13"; "Android 14"]);
     ("smartwatch", ["watchOS 9"; "watchOS 10"; "WearOS 4"])].

Definition EMAIL_DOMAINS : list string :=
  ["gmail.com"; "outlook.com"; "yahoo.com"; "hotmail.com"; "icloud.com";
   "protonmail.com"].

Definition REFERRAL_SOURCES : list string :=
  ["google"; "facebook"; "instagram"; "twitter"; "email"; "direct";
   "organic"; "paid"; "referral"].

Definition PAYMENT_METHODS : list string :=
  ["credit_card"; "paypal"; "debit_card"; "apple_pay"; "google_pay";
   "bank_transfer"].

Definition SUBSCRIPTION_TYPES : list string :=
  ["monthly"; "annual"; "quarterly"; "weekly"].

Definition PREMIUM_TIERS : list string :=
  ["free"; "standard"; "premium"; "enterprise"].

(** The literal every null-injecting function binds to [null_types]. *)
Definition null_types : list string := [""; "null"; "NULL"; "-"; "N/A"].

Definition cities : list (Q * Q) :=
  [(40.7128, -74.0060); (34.0522, -118.2437); (51.5074, -0.1278);
   (48.8566, 2.3522); (52.5200, 13.4050); (35.6762, 139.6503);
   (41.9028, 12.4964); (-33.8688, 151.2093); (43.6532, -79.3832);
   (-23.5505, -46.6333)]%Q.

Definition first_names : list string :=
  ["john"; "sarah"; "mike"; "anna"; "pierre"; "emma"; "taro"; "marco";
   "maria"; "carlos"].

Definition last_names : list string :=
  ["doe"; "smith"; "wilson"; "mueller"; "dupont"; "brown"; "yamamoto";
   "rossi"; "silva"; "garcia"].

Definition timezones : list string :=
  ["UTC-8"; "UTC-7"; "UTC-6"; "UTC-5"; "UTC-4"; "UTC-3"; "UTC-2"; "UTC-1";
   "UTC+0"; "UTC+1"; "UTC+2"; "UTC+3"; "UTC+4"; "UTC+5"; "UTC+6"; "UTC+7";
   "UTC+8"; "UTC+9"; "UTC+10"; "UTC+11"; "UTC+12"].

Definition garbage_lines : list string :=
  ["This is a garbage line that should be ignored";
   "ooOOoooo We end here.";
   "Random text that doesn't match the pattern";
   "ERROR: Invalid data format";
   "DEBUG: Processing row data"].

Definition headers : list string :=
  ["user_id"; "age"; "income"; "is_active"; "registration_date";
   "last_login_time"; "premium_tier"; "country_code"; "score"; "rating";
   "has_verified_email"; "username"; "created_at"; "login_count";
   "subscription_type"; "payment_method"; "account_balance";
   "monthly_spend"; "is_premium"; "email_domain"; "join_date"; "timezone";
   "last_purchase_date"; "referral_source"; "device_type"; "os_version";
   "app_version"; "location_lat"; "location_lng"; "session_duration";
   "page_views"; "conversion_rate"; "churn_probability"].

Section Generator.
Context {W : Type} `{PyRandom W} `{NumpyRandom W}.

Definition generate_realistic_age : State W Z :=
  let* x := np_random_normal 35 12 in
  ret (Py.int x).

Definition generate_realistic_income : State W Z :=
  let* x := np_random_lognormal 10.5 0.5 in
  ret (Py.int (x * 1000)).

Definition generate_boolean_with_null_probability (null_prob : Q) : State W string :=
  let* u := random_random in
  if Py.Qltb u null_prob then Random.choice null_types
  else Random.choice ["true"; "false"].

Definition generate_float_with_null_probability
    (min_val max_val null_prob : Q) : State W string :=
  let* u := random_random in
  if Py.Qltb u null_prob then Random.choice null_types
  else
    let* x := Random.uniform min_val max_val in
    ret (Py.format_f 2 x).

Definition generate_integer_with_null_probability
    (min_val max_val : Z) (null_prob : Q) : State W string :=
  let* u := random_random in
  if Py.Qltb u null_prob then Random.choice null_types
  else
    let* n := Random.randint min_val max_val in
    ret (Py.str n).

Definition generate_date_with_null_probability
    (start_date end_date : Z) (null_prob : Q) : State W string :=
  let* u := random_random in
  if Py.Qltb u null_prob then Random.choice null_types
  else
    let days_between := end_date - start_date in
    let* random_days := Random.randint 0 days_between in
    let random_date := start_date + random_days in
    ret (Py.strftime_Ymd random_date).

Definition generate_time_with_null_probability (null_prob : Q) : State W string :=
  let* u := random_random in
  if Py.Qltb u null_prob then Random.choice null_types
  else
    let* hour := Random.randint 0 23 in
    let* minute := Random.randint 0 59 in
    let* second := Random.randint 0 59 in
    ret (Py.format_0d 2 hour +:+ ":" +:+ Py.format_0d 2 minute +:+ ":" +:+
         Py.format_0d 2 second).

Definition generate_datetime_with_null_probability
    (start_date end_date : Z) (null_prob : Q) : State W string :=
  let* u := random_random in
  if Py.Qltb u null_prob then Random.choice null_types
  else
    let days_between := end_date - start_date in
    let* random_days := Random.randint 0 days_between in
    let random_date := start_date + random_days in
    let* hour := Random.randint 0 23 in
    let* minute := Random.randint 0 59 in
    let* second := Random.randint 0 59 in
    let* millisecond := Random.randint 0 999 in
    ret (Py.strftime_Ymd random_date +:+ "T" +:+ Py.format_0d 2 hour +:+ ":" +:+
         Py.format_0d 2 minute +:+ ":" +:+ Py.format_0d 2 second +:+ "." +:+
         Py.format_0d 3 millisecond +:+ "Z").

Definition generate_realistic_score : State W string :=
  generate_float_with_null_probability 0.0 100.0 0.02.

Definition generate_realistic_rating : State W string :=
  generate_float_with_null_probability 1.0 5.0 0.01.

Definition generate_realistic_balance : State W string :=
  generate_float_with_null_probability 0.0 10000.0 0.05.

Definition generate_realistic_spend : State W string :=
  generate_float_with_null_probability 0.0 500.0 0.03.

Definition generate_realistic_coordinates : State W (Q * Q) :=
  let* base_city := Random.choice cities in
  let* dlat := Random.uniform (-0.1) 0.1 in
  let lat := (fst base_city + dlat)%Q in
  let* dlng := Random.uniform (-0.1) 0.1 in
  let lng := (snd base_city + dlng)%Q in
  ret (lat, lng).

Definition generate_realistic_session_duration : State W string :=
  let* x := np_random_exponential 15 in
  let minutes := (x + 5)%Q in
  ret (Py.str (Py.int (minutes * 60))).

Definition generate_realistic_page_views : State W string :=
  let* x := np_random_exponential 20 in
  let views := (x + 5)%Q in
  ret (Py.str (Py.int views)).

Definition generate_realistic_conversion_rate : State W string :=
  generate_float_with_null_probability 0.0 0.1 0.15.

Definition generate_realistic_churn_probability : State W string :=
  generate_float_with_null_probability 0.0 1.0 0.10.

Definition generate_username : State W string :=
  let* u := random_random in
  if Py.Qltb u 0.8 then
    let* first := Random.choice first_names in
    let* last := Random.choice last_names in
    ret (first +:+ "_" +:+ last)
  else Random.choice null_types.

Definition generate_timezone : State W string :=
  Random.choice timezones.

Definition generate_app_version : State W string :=
  let* major := Random.randint 1 3 in
  let* minor := Random.randint 0 9 in
  let* patch := Random.randint 0 9 in
  ret (Py.str major +:+ "." +:+ Py.str minor +:+ "." +:+ Py.str patch).

Definition generate_row (user_id : Z) : State W (list string) :=
  let* age := generate_realistic_age in
  let age := Z.max 18 (Z.min 75 age) in
  let* income := generate_realistic_income in
  let income := Z.max 20000 (Z.min 200000 income) in
  let* is_active := generate_boolean_with_null_probability 0.02 in
  let* has_verified_email := generate_boolean_with_null_probability 0.03 in
  let* is_premium := generate_boolean_with_null_probability 0.02 in
  let start_date := Py.date 2023 1 1 in
  let end_date := Py.date 2023 12 31 in
  let* registration_date :=
    generate_date_with_null_probability start_date end_date 0.01 in
  let join_date := registration_date in
  let* last_login_time := generate_time_with_null_probability 0.02 in
  let* created_at :=
    generate_datetime_with_null_probability start_date end_date 0.01 in
  let* last_purchase_date :=
    generate_datetime_with_null_probability start_date end_date 0.05 in
  let* country_code := Random.choice COUNTRIES in
  let* premium_tier := Random.choice PREMIUM_TIERS in
  let* subscription_type := Random.choice SUBSCRIPTION_TYPES in
  let* payment_method := Random.choice PAYMENT_METHODS in
  let* email_domain := Random.choice EMAIL_DOMAINS in
  let* referral_source := Random.choice REFERRAL_SOURCES in
  let* device_type := Random.choice DEVICE_TYPES in
  let* os_version :=
    Random.choice (default ["Unknown"] (OS_VERSIONS !! device_type)) in
  let* score := generate_realistic_score in
  let* rating := generate_realistic_rating in
  let* login_count := generate_integer_with_null_probability 0 500 0.02 in
  let* account_balance := generate_realistic_balance in
  let* monthly_spend := generate_realistic_spend in
  let* '(lat, lng) := generate_realistic_coordinates in
  let location_lat := Py.format_f 4 lat in
  let location_lng := Py.format_f 4 lng in
  let* session_duration := generate_realistic_session_duration in
  let* page_views := generate_realistic_page_views in
  let* conversion_rate := generate_realistic_conversion_rate in
  let* churn_probability := generate_realistic_churn_probability in
  let* username := generate_username in
  let* timezone := generate_timezone in
  let* app_version := generate_app_version in
  ret [Py.str user_id; Py.str age; Py.str income; is_active;
       registration_date; last_login_time; premium_tier; country_code;
       score; rating; has_verified_email; username; created_at;
       login_count; subscription_type; payment_method; account_balance;
       monthly_spend; is_premium; email_domain; join_date; timezone;
       last_purchase_date; referral_source; device_type; os_version;
       app_version; location_lat; location_lng; session_duration;
       page_views; conversion_rate; churn_probability].

(** The rows one iteration of the loop of [main] hands to the writer: the
    data row, then the empty row when [i % E == 0], then the garbage row
    when [i % G == 0].  [main] has [E = 5000] and [G = 10000]. *)
Definition empty_row : list string := replicate (length headers) "".

Definition garbage_row : State W (list string) :=
  let* text := Random.choice garbage_lines in
  ret ([text] ++ replicate (length headers - 1) "").

Definition write_iteration (E G i : Z) : State W (list (list string)) :=
  let* row := generate_row i in
  let empty := if i mod E =? 0 then [empty_row] else [] in
  let* garbage :=
    (if i mod G =? 0 then let* r := garbage_row in ret [r] else ret []) in
  ret ([row] ++ empty ++ garbage).

Fixpoint write_rows (E G : Z) (indices : list Z) : State W (list (list string)) :=
  match indices with
  | [] => ret []
  | i :: rest =>
      let* written := write_iteration E G i in
      let* more := write_rows E G rest in
      ret (written ++ more)
  end.

(** The loop [for i in range(1, N + 1)]. *)
Definition main_rows (N E G : Z) : State W (list (list string)) :=
  write_rows E G (seqZ 1 N).

Definition file_structure : list string :=
  ["# Large Complex Test Dataset";
   "# This file contains ~100,000 rows of realistic data with various distributions and null patterns";
   "# Used to test CSV import functionality, type inference, and data handling";
   "";
   "# Fake header line to test header row selection";
   "Fake Header Line - Ignore This";
   "";
   "# Another fake line";
   "Another fake line with some text";
   "";
   "# Real headers start here";
   Csv.join "," headers;
   "";
   "# Data starts here - 100,000 rows with realistic patterns"].

Definition newline : string := String Csv.LF EmptyString.

(** The content of [test_large_complex.csv] for [N] data rows. *)
Definition main_file (N E G : Z) : State W string :=
  let* rows := main_rows N E G in
  ret (Py.concat_strings ((λ line, line +:+ newline) <$> file_structure) +:+
       Py.concat_strings (Csv.writerow <$> rows)).

Definition main : State W string := main_file 100000 5000 10000.

End Generator.
End LargeTestData.

(** ** [test_data/generate_large_dataset.py] *)

Module LargeDataset.

Definition NUM_RECORDS : Z := 10000.
Definition NUM_GROUPS : Z := 500.
Definition DUPLICATE_RATIO : Q := 0.3.

Definition DEPARTMENTS : list string :=
  ["Engineering"; "Marketing"; "Sales"; "HR"; "Finance"; "Operations";
   "Legal"; "IT"].

Definition NAMES : list string :=
  ["John"; "Jane"; "Bob"; "Alice"; "Charlie"; "David"; "Emma"; "Frank";
   "Grace"; "Henry"; "Ivy"; "Jack"; "Kate"; "Liam"; "Mia"; "Noah"; "Olivia";
   "Paul"; "Quinn"; "Ruby"; "Sam"; "Tina"; "Uma"; "Victor"; "Wendy";
   "Xander"; "Yara"; "Zoe"; "Alex"; "Blake"; "Casey"; "Drew"; "Eden";
   "Finley"; "Gray"; "Harper"; "Indigo"; "Jordan"; "Kai"; "Luna"].

(** The value under ['record_id']: the [int] counter for a base record, a
    [str] for a duplicate. *)
Inductive ident :=
  | IntId (n : Z)
  | StrId (s : string).

(** The dict [generate_record] returns; the fields are its keys, in the
    order of the dict literal. *)
Record record := Record_ {
  group_id : string;
  name : string;
  age : option Z;
  salary : option Z;
  is_active : bool;
  created_date : string;
  department : option string;
  rating : option Q;
  record_id : ident
}.

#[global] Instance record_inhabited : Inhabited record :=
  populate (Record_ "" "" None None false "" None None (IntId 0)).

(** [duplicate = base_record.copy(); duplicate['record_id'] = v]. *)
Definition set_record_id (r : record) (v : ident) : record :=
  Record_ (group_id r) (name r) (age r) (salary r) (is_active r)
          (created_date r) (department r) (rating r) v.

(** [f"{v}"] for the value under ['record_id']. *)
Definition format_ident (v : ident) : string :=
  match v with
  | IntId n => Py.str n
  | StrId s => s
  end.

Definition create_duplicate_records (base_record : record) (num_duplicates : Z)
    : list record :=
  (λ i, set_record_id base_record
          (StrId (format_ident (record_id base_record) +:+ "_dup_" +:+
                  Py.str (i + 1))))
  <$> seqZ 0 num_duplicates.

Section Generator.
Context {W : Type} `{PyRandom W}.

(** [now] is the ordinal of the date [datetime.datetime.now()] falls on. *)
Definition generate_record (now : Z) (group_id : string) (record_id : Z)
    : State W record :=
  let* name := Random.choice NAMES in
  let* age := Random.randint 22 65 in
  let* salary := Random.randint 30000 150000 in
  let* is_active := Random.choice [true; false] in
  let* department := Random.choice DEPARTMENTS in
  let* x := Random.uniform 1.0 5.0 in
  let rating := Py.round1 x in
  let* days_ago := Random.randint 0 730 in
  let created_date := now - days_ago in
  let created_date_str := Py.strftime_Ymd created_date in
  let* u_age := random_random in
  let age := if Py.Qltb u_age 0.1 then None else Some age in
  let* u_salary := random_random in
  let salary := if Py.Qltb u_salary 0.05 then None else Some salary in
  let* u_rating := random_random in
  let rating := if Py.Qltb u_rating 0.08 then None else Some rating in
  let* u_department := random_random in
  let department :=
    if Py.Qltb u_department 0.03 then None else Some department in
  ret (Record_ group_id name age salary is_active created_date_str
               department rating (IntId record_id)).

(** [for i in range(group_size)]: append a base record, advance the
    counter. *)
Fixpoint base_records (now : Z) (group_id : string) (indices : list Z)
    (group_records : list record) (record_id : Z) : State W (list record * Z) :=
  match indices with
  | [] => ret (group_records, record_id)
  | _ :: rest =>
      let* base_record := generate_record now group_id record_id in
      base_records now group_id rest (group_records ++ [base_record])
                   (record_id + 1)
  end.

(** One iteration of [for group_num in range(NUM_GROUPS)]: the records of
    the group and the counter after it. *)
Definition generate_group (now : Z) (group_num : Z) (record_id : Z)
    : State W (list record * Z) :=
  let group_id := "GROUP_" +:+ Py.format_0d 3 group_num in
  let* group_size := Random.randint 1 50 in
  let* '(group_records, record_id) :=
    base_records now group_id (seqZ 0 group_size) [] record_id in
  let* u := random_random in
  if Py.Qltb u DUPLICATE_RATIO then
    let* base_record := Random.choice group_records in
    let* num_duplicates := Random.randint 1 5 in
    let duplicates := create_duplicate_records base_record num_duplicates in
    ret (group_records ++ duplicates, record_id + num_duplicates)
  else ret (group_records, record_id).

Fixpoint generate_groups (now : Z) (group_nums : list Z)
    (records : list record) (record_id : Z) : State W (list record * Z) :=
  match group_nums with
  | [] => ret (records, record_id)
  | group_num :: rest =>
      let* '(group_records, record_id) := generate_group now group_num record_id in
      generate_groups now rest (records ++ group_records) record_id
  end.

(** [generate_large_dataset] for [num_groups] groups, before the shuffle. *)
Definition unshuffled_dataset (now : Z) (num_groups : Z) : State W (list record) :=
  let* '(records, _) := generate_groups now (seqZ 0 num_groups) [] 1 in
  ret records.

Definition generate_dataset (now : Z) (num_groups : Z) : State W (list record) :=
  let* records := unshuffled_dataset now num_groups in
  Random.shuffle records.

Definition generate_large_dataset (now : Z) : State W (list record) :=
  generate_dataset now NUM_GROUPS.

End Generator.

(** *** [write_csv] *)

Definition fieldnames : list string :=
  ["group_id"; "name"; "age"; "salary"; "is_active"; "created_date";
   "department"; "rating"; "record_id"].

(** The cells [csv.DictWriter] writes for a record: [None] is written as
    the empty string, everything else through [str]. *)
Definition cells (r : record) : list string :=
  [group_id r; name r;
   from_option Py.str "" (age r);
   from_option Py.str "" (salary r);
   if is_active r then "True" else "False";
   created_date r;
   default "" (department r);
   from_option Py.str_float "" (rating r);
   format_ident (record_id r)].

(** The content of the file, or [None] when [records] is empty and no
    file is opened. *)
Definition write_csv (records : list record) : option string :=
  match records with
  | [] => None
  | _ =>
      Some (Csv.writerow fieldnames +:+
            Py.concat_strings (Csv.writerow ∘ cells <$> records))
  end.

(** [main]: [w] is the state [random.seed(42)] leaves the generator in. *)
Definition main {W : Type} `{PyRandom W} (now : Z) (w : W) : option string :=
  write_csv (fst (generate_large_dataset now w)).

End LargeDataset.

(** ** A replaying instance of the random sources

    The state lists the outcomes still to come: raw numbers for [random]
    (reduced into the requested range) and samples for [numpy.random].  An
    exhausted script keeps answering 0. *)

Module Scripted.

Record world := World { py_script : list N; np_script : list Q }.

Definition next_py (w : world) : N * world :=
  match py_script w with
  | [] => (0%N, w)
  | x :: t => (x, World t (np_script w))
  end.

Definition next_np (w : world) : Q * world :=
  match np_script w with
  | [] => (0%Q, w)
  | x :: t => (x, World (py_script w) t)
  end.

(** [random.random()] replays thousandths. *)
Definition replay_random : State world Q :=
  λ w, let (x, w') := next_py w in
       (inject_Z (Z.of_N (x mod 1000)) / 1000, w')%Q.

Definition replay_randbelow (n : N) : State world N :=
  λ w, let (x, w') := next_py w in ((x mod n)%N, w').

Definition replay_normal (mu sigma : Q) : State world Q := next_np.

Definition replay_lognormal (mu sigma : Q) : State world Q := next_np.

Definition replay_exponential (scale : Q) : State world Q :=
  λ w, let (x, w') := next_np w in (Qabs x, w').

End Scripted.

(** * Properties *)

(** ** The replaying instance meets the interface *)

Module ScriptedLaws.
Import Scripted.

Lemma replay_random_range w :
  (0 <= fst (replay_random w))%Q ∧ (fst (replay_random w) < 1)%Q.
Proof.
  unfold replay_random. destruct (next_py w) as [x w']. cbn [fst].
  pose proof (N.mod_lt x 1000 ltac:(discriminate)) as Hlt.
  unfold Qle, Qlt, Qdiv, Qmult, Qinv, inject_Z. cbn.
  change (Z.pos (1 * 1000)) with 1000%Z.
  set (r := (x mod 1000)%N) in *. lia.
Qed.

Lemma replay_randbelow_lt n w :
  (0 < n)%N → (fst (replay_randbelow n w) < n)%N.
Proof.
  intros Hn. unfold replay_randbelow. destruct (next_py w) as [x w'].
  cbn [fst]. apply N.mod_lt. lia.
Qed.

Lemma replay_exponential_nonneg scale w :
  (0 <= fst (replay_exponential scale w))%Q.
Proof.
  unfold replay_exponential. destruct (next_np w) as [x w']. cbn [fst].
  apply Qabs_nonneg.
Qed.

#[global] Instance py_random : PyRandom world :=
  {| random_random := replay_random;
     randbelow := replay_randbelow;
     random_random_range := replay_random_range;
     randbelow_lt := replay_randbelow_lt |}.

#[global] Instance numpy_random : NumpyRandom world :=
  {| np_random_normal := replay_normal;
     np_random_lognormal := replay_lognormal;
     np_random_exponential := replay_exponential;
     np_random_exponential_nonneg := replay_exponential_nonneg |}.

End ScriptedLaws.

(** ** Running monadic code one call at a time *)

Ltac run_call :=
  match goal with
  | |- context [let (_, _) := ?m in _] =>
      let a := fresh "a" in
      let w := fresh "w" in
      let E := fresh "E" in
      destruct m as [a w] eqn:E; cbn [fst snd] in *
  end.

Ltac run := cbv beta delta [bind ret] in *; repeat run_call.

(** ** The derived functions of [random] stay in range *)

Module RandomFacts.
Section Facts.
Context {W : Type} `{PyRandom W}.

Lemma choice_elem {A : Type} `{Inhabited A} (seq : list A) (w : W) :
  seq ≠ [] → fst (Random.choice seq w) ∈ seq.
Proof.
  intros Hne. unfold Random.choice. run.
  apply list_elem_of_lookup_total_2.
  pose proof (randbelow_lt (N.of_nat (length seq)) w) as Hlt.
  rewrite E in Hlt. cbn [fst] in Hlt.
  destruct seq as [|x seq]; [done|]. cbn [length] in *. lia.
Qed.

Lemma randint_range (a b : Z) (w : W) :
  a ≤ b → a ≤ fst (Random.randint a b w) ≤ b.
Proof.
  intros Hab. unfold Random.randint. run.
  pose proof (randbelow_lt (Z.to_N (b - a + 1)) w) as Hlt.
  rewrite E in Hlt. cbn [fst] in Hlt. lia.
Qed.

Lemma uniform_range (a b : Q) (w : W) :
  (a <= b)%Q →
  (a <= fst (Random.uniform a b w))%Q ∧ (fst (Random.uniform a b w) <= b)%Q.
Proof.
  intros Hab. unfold Random.uniform. run.
  destruct (random_random_range w) as [H0 H1]. rewrite E in H0, H1.
  cbn [fst] in H0, H1.
  assert (0 <= b - a)%Q as Hd by (apply (Qplus_le_l _ _ a); ring_simplify; exact Hab).
  split.
  - rewrite <- (Qplus_0_r a) at 1. apply Qplus_le_r.
    apply Qmult_le_0_compat; assumption.
  - apply (Qle_trans _ (a + (b - a) * 1)); [|ring_simplify; apply Qle_refl].
    apply Qplus_le_r. rewrite !(Qmult_comm (b - a)).
    apply Qmult_le_compat_r; [apply Qlt_le_weak; exact H1 | exact Hd].
Qed.

Lemma swap_perm {A : Type} (x : list A) (i j : nat) : Random.swap x i j ≡ₚ x.
Proof.
  unfold Random.swap.
  destruct (x !! i) as [a|] eqn:Hi; [|done].
  destruct (x !! j) as [b|] eqn:Hj; [|done].
  by apply Permutation_insert_swap.
Qed.

Lemma shuffle_from_perm {A : Type} (i : nat) (x : list A) (w : W) :
  fst (Random.shuffle_from i x w) ≡ₚ x.
Proof.
  revert x w. induction i as [|i IH]; intros x w; [done|].
  cbn [Random.shuffle_from]. run.
  specialize (IH (Random.swap x (S i) (N.to_nat a)) w0).
  rewrite IH. apply swap_perm.
Qed.

Lemma shuffle_perm {A : Type} (x : list A) (w : W) :
  fst (Random.shuffle x w) ≡ₚ x.
Proof. apply shuffle_from_perm. Qed.

End Facts.
End RandomFacts.

(** ** Decimal strings and rounding *)

Module PyFacts.

(** Characters [str] of an [int] is made of: digits and the minus sign. *)
Definition plain_char (c : ascii) : bool :=
  let n := nat_of_ascii c in
  ((48 <=? n)%nat && (n <=? 57)%nat) || (n =? 45)%nat.

Fixpoint plain (s : string) : bool :=
  match s with
  | EmptyString => true
  | String c s' => plain_char c && plain s'
  end.

Lemma pretty_N_go_plain (x : N) (s : string) :
  plain s = true → plain (pretty_N_go x s) = true.
Proof.
  revert s. induction (N.lt_wf_0 x) as [x _ IH]; intros s Hs.
  assert (x = 0 ∨ 0 < x)%N as [->|?] by lia.
  - by rewrite pretty_N_go_0.
  - rewrite pretty_N_go_step by done. apply IH.
    { by apply N.div_lt. }
    cbn [plain]. rewrite Hs, andb_true_r.
    unfold pretty_N_char. by repeat case_match.
Qed.

Lemma pretty_N_go_nonempty (x : N) (s : string) :
  s ≠ "" → pretty_N_go x s ≠ "".
Proof.
  revert s. induction (N.lt_wf_0 x) as [x _ IH]; intros s Hs.
  assert (x = 0 ∨ 0 < x)%N as [->|?] by lia.
  - by rewrite pretty_N_go_0.
  - rewrite pretty_N_go_step by done. apply IH; [by apply N.div_lt | done].
Qed.

Lemma pretty_N_plain (x : N) : plain (pretty x) = true.
Proof.
  unfold pretty, pretty_N. case_decide; [done|]. by apply pretty_N_go_plain.
Qed.

Lemma pretty_N_nonempty (x : N) : pretty x ≠ "".
Proof.
  unfold pretty, pretty_N. case_decide; [done|].
  rewrite pretty_N_go_step by lia. by apply pretty_N_go_nonempty.
Qed.

Lemma pretty_Z_plain (x : Z) : plain (pretty x) = true.
Proof.
  destruct x as [|p|p]; unfold pretty, pretty_Z; [done| |].
  - apply pretty_N_plain.
  - cbn [String.append plain]. change (pretty p) with (pretty (N.pos p)). apply pretty_N_plain.
Qed.

Lemma pretty_Z_nonempty (x : Z) : pretty x ≠ "".
Proof.
  destruct x as [|p|p]; unfold pretty, pretty_Z; [done| |done].
  apply pretty_N_nonempty.
Qed.

Lemma str_nonempty (n : Z) : Py.str n ≠ "".
Proof. apply pretty_Z_nonempty. Qed.

Lemma str_inj (m n : Z) : Py.str m = Py.str n → m = n.
Proof. apply pretty_Z_inj. Qed.

(** Rounding to the nearest integer stays between integer bounds. *)
Lemma round_half_even_bounds (x : Q) (a b : Z) :
  (inject_Z a <= x)%Q → (x <= inject_Z b)%Q →
  a ≤ Py.round_half_even x ≤ b.
Proof.
  destruct x as [n d]. unfold Qle, Py.round_half_even. cbn [Qnum Qden inject_Z].
  rewrite !Z.mul_1_r. intros Ha Hb.
  pose proof (Z.div_mod n (Z.pos d) ltac:(lia)) as Hdm.
  pose proof (Z.mod_pos_bound n (Z.pos d) ltac:(lia)) as Hr.
  set (fl := n / Z.pos d) in *. set (r := n mod Z.pos d) in *.
  assert (a ≤ fl) by nia.
  assert (fl ≤ b) by nia.
  assert (0 < r → fl + 1 ≤ b) by nia.
  repeat case_match; lia.
Qed.

Lemma append_nil (t : string) : "" +:+ t = t.
Proof. reflexivity. Qed.

Lemma append_cons (c : ascii) (s t : string) :
  String c s +:+ t = String c (s +:+ t).
Proof. reflexivity. Qed.

Lemma plain_app (s t : string) : plain (s +:+ t) = plain s && plain t.
Proof.
  induction s as [|c s IH]; [done|].
  rewrite append_cons. cbn [plain]. by rewrite IH, andb_assoc.
Qed.

(** A string of digits cannot contain the separator of a duplicate's
    identifier. *)
Lemma plain_not_separated (s s' t : string) :
  plain s = true → s ≠ s' +:+ "_" +:+ t.
Proof.
  intros Hs ->. rewrite plain_app in Hs.
  apply andb_true_iff in Hs as [_ Hs]. rewrite append_cons in Hs. by cbn in Hs.
Qed.

(** Two digit strings followed by the separator split the same way. *)
Lemma plain_separated_inj (s1 s2 t1 t2 : string) :
  plain s1 = true → plain s2 = true →
  s1 +:+ "_" +:+ t1 = s2 +:+ "_" +:+ t2 → s1 = s2 ∧ t1 = t2.
Proof.
  revert s2. induction s1 as [|c1 s1 IH]; intros [|c2 s2] H1 H2 Heq.
  - rewrite !append_nil, !append_cons in Heq. by simplify_eq.
  - rewrite append_nil, !append_cons in Heq. injection Heq as <- _. by cbn in H2.
  - rewrite append_nil, !append_cons in Heq. injection Heq as -> _. by cbn in H1.
  - rewrite !(append_cons _ _ (_ +:+ _)) in Heq. injection Heq as -> Heq.
    cbn [plain] in H1, H2.
    apply andb_true_iff in H1 as [_ H1]. apply andb_true_iff in H2 as [_ H2].
    destruct (IH s2 H1 H2 Heq) as [-> ->]. done.
Qed.

Lemma str_plain (n : Z) : plain (Py.str n) = true.
Proof. apply pretty_Z_plain. Qed.

End PyFacts.

(** ** Rows of [generate_large_test_data.py] *)

Module LargeTestDataProps.
Import LargeTestData.

(** [row[headers.index(name)]]. *)
Definition column_index (name : string) : option nat :=
  fst <$> list_find (λ h, h = name) headers.

Definition column (name : string) (row : list string) : option string :=
  i ← column_index name; row !! i.

Ltac columns :=
  unfold column;
  repeat match goal with
  | |- context [column_index ?n] =>
      let i := eval vm_compute in (column_index n) in
      change (column_index n) with i
  end;
  cbn [mbind option_bind lookup list_lookup].

Section Rows.
Context {W : Type} `{PyRandom W} `{NumpyRandom W}.

(** C9.  In every generated row the join_date column holds the very value
    sampled for registration_date, null sentinel or not: it is the result
    [v] of the single call of the date generator, and the next draw (the
    login time) starts from the state [w2] that call left, so nothing is
    drawn for join_date. *)
Theorem join_date_is_registration_date (user_id : Z) (w : W) :
  let row := fst (generate_row user_id w) in
  ∃ (w1 w2 : W) (v : string),
    generate_date_with_null_probability
      (Py.date 2023 1 1) (Py.date 2023 12 31) 0.01 w1 = (v, w2) ∧
    column "registration_date" row = Some v ∧
    column "join_date" row = Some v ∧
    column "last_login_time" row =
      Some (fst (generate_time_with_null_probability 0.02 w2)).
Proof.
  unfold generate_row. run.
  match goal with
  | E : generate_date_with_null_probability _ _ _ ?w1 = (?v, ?w2) |- _ =>
      exists w1, w2, v; split; [exact E|]
  end.
  match goal with
  | E : generate_time_with_null_probability _ _ = _ |- _ => rewrite E
  end.
  columns. done.
Qed.


(** *** The null injector *)

(** The contract of the spec (4.2), word for word: draw a uniform number;
    below the null probability return one of the five sentinels chosen by
    [random.choice], instead of calling the wrapped generator. *)
Definition null_injector (null_prob : Q) (wrapped : State W string)
    : State W string :=
  let* u := random_random in
  if Py.Qltb u null_prob then Random.choice null_types else wrapped.

(** What each generator runs after its null check. *)
Definition boolean_value : State W string :=
  Random.choice ["true"; "false"].

Definition float_value (min_val max_val : Q) : State W string :=
  let* x := Random.uniform min_val max_val in
  ret (Py.format_f 2 x).

Definition integer_value (min_val max_val : Z) : State W string :=
  let* n := Random.randint min_val max_val in
  ret (Py.str n).

Definition date_value (start_date end_date : Z) : State W string :=
  let* random_days := Random.randint 0 (end_date - start_date) in
  ret (Py.strftime_Ymd (start_date + random_days)).

Definition clock (hour minute second : Z) : string :=
  Py.format_0d 2 hour +:+ ":" +:+ Py.format_0d 2 minute +:+ ":" +:+
  Py.format_0d 2 second.

Definition time_value : State W string :=
  let* hour := Random.randint 0 23 in
  let* minute := Random.randint 0 59 in
  let* second := Random.randint 0 59 in
  ret (clock hour minute second).

Definition datetime_value (start_date end_date : Z) : State W string :=
  let* random_days := Random.randint 0 (end_date - start_date) in
  let* hour := Random.randint 0 23 in
  let* minute := Random.randint 0 59 in
  let* second := Random.randint 0 59 in
  let* millisecond := Random.randint 0 999 in
  ret (Py.strftime_Ymd (start_date + random_days) +:+ "T" +:+
       Py.format_0d 2 hour +:+ ":" +:+ Py.format_0d 2 minute +:+ ":" +:+
       Py.format_0d 2 second +:+ "." +:+ Py.format_0d 3 millisecond +:+ "Z").

Definition username_value : State W string :=
  let* first := Random.choice first_names in
  let* last := Random.choice last_names in
  ret (first +:+ "_" +:+ last).

(** [g] draws first, answers with [random.choice(null_types)] from the
    state the draw left when the draw is below [null_prob], and with
    [wrapped] from that state otherwise. *)
Definition injects_nulls (null_prob : Q) (wrapped g : State W string) : Prop :=
  ∀ w : W,
    let (u, w1) := random_random w in
    ((u < null_prob)%Q →
       g w = Random.choice null_types w1 ∧ fst (g w) ∈ null_types) ∧
    ((null_prob <= u)%Q → g w = wrapped w1).

Lemma Qltb_true (x y : Q) : Py.Qltb x y = true ↔ (x < y)%Q.
Proof.
  unfold Py.Qltb. rewrite negb_true_iff, <- not_true_iff_false, Qle_bool_iff.
  split; [apply Qnot_le_lt | apply Qlt_not_le].
Qed.

Lemma Qltb_false (x y : Q) : Py.Qltb x y = false ↔ (y <= x)%Q.
Proof.
  unfold Py.Qltb. rewrite negb_false_iff. apply Qle_bool_iff.
Qed.

Lemma null_types_choice (w : W) : fst (Random.choice null_types w) ∈ null_types.
Proof. by apply RandomFacts.choice_elem. Qed.

Lemma null_injector_injects (null_prob : Q) (wrapped : State W string) :
  injects_nulls null_prob wrapped (null_injector null_prob wrapped).
Proof.
  intros w. unfold null_injector, bind.
  destruct (random_random w) as [u w1]. split.
  - intros Hlt. apply Qltb_true in Hlt. rewrite Hlt.
    split; [done | apply null_types_choice].
  - intros Hle. apply Qltb_false in Hle. by rewrite Hle.
Qed.

Lemma null_injector_domain (P : string → Prop) (null_prob : Q)
    (wrapped : State W string) (w : W) :
  (∀ w', P (fst (wrapped w'))) →
  fst (null_injector null_prob wrapped w) ∈ null_types ∨
  P (fst (null_injector null_prob wrapped w)).
Proof.
  intros HP. unfold null_injector, bind.
  destruct (random_random w) as [u w1].
  destruct (Py.Qltb u null_prob); [left; apply null_types_choice | right; apply HP].
Qed.

Lemma boolean_is_injector (p : Q) :
  generate_boolean_with_null_probability p = null_injector p boolean_value.
Proof. reflexivity. Qed.

Lemma float_is_injector (lo hi p : Q) :
  generate_float_with_null_probability lo hi p = null_injector p (float_value lo hi).
Proof. reflexivity. Qed.

Lemma integer_is_injector (lo hi : Z) (p : Q) :
  generate_integer_with_null_probability lo hi p =
  null_injector p (integer_value lo hi).
Proof. reflexivity. Qed.

Lemma date_is_injector (s e : Z) (p : Q) :
  generate_date_with_null_probability s e p = null_injector p (date_value s e).
Proof. reflexivity. Qed.

Lemma time_is_injector (p : Q) :
  generate_time_with_null_probability p = null_injector p time_value.
Proof. reflexivity. Qed.

Lemma datetime_is_injector (s e : Z) (p : Q) :
  generate_datetime_with_null_probability s e p =
  null_injector p (datetime_value s e).
Proof. reflexivity. Qed.

(** [generate_username] tests the draw the other way round. *)
Lemma username_cases (w : W) :
  let (u, w1) := random_random w in
  ((u < 0.8)%Q → generate_username w = username_value w1) ∧
  ((0.8 <= u)%Q →
     generate_username w = Random.choice null_types w1 ∧
     fst (generate_username w) ∈ null_types).
Proof.
  unfold generate_username, bind.
  destruct (random_random w) as [u w1]. split.
  - intros Hlt. apply Qltb_true in Hlt. by rewrite Hlt.
  - intros Hle. apply Qltb_false in Hle. rewrite Hle.
    split; [done | apply null_types_choice].
Qed.

(** *** Declared domains of the columns *)

Definition any_integer (v : string) : Prop := ∃ n : Z, v = Py.str n.

Definition integer (lo hi : Z) (v : string) : Prop :=
  ∃ n : Z, lo ≤ n ≤ hi ∧ v = Py.str n.

Definition at_least (lo : Z) (v : string) : Prop :=
  ∃ n : Z, lo ≤ n ∧ v = Py.str n.

Definition two_decimals (lo hi : Q) (v : string) : Prop :=
  ∃ x : Q, (lo <= x)%Q ∧ (x <= hi)%Q ∧ v = Py.format_f 2 x.

Definition one_of (l : list string) (v : string) : Prop := v ∈ l.

Definition day (start_date end_date : Z) (v : string) : Prop :=
  ∃ d : Z, start_date ≤ d ≤ end_date ∧ v = Py.strftime_Ymd d.

Definition time_of_day (v : string) : Prop :=
  ∃ h m s : Z, 0 ≤ h ≤ 23 ∧ 0 ≤ m ≤ 59 ∧ 0 ≤ s ≤ 59 ∧ v = clock h m s.

Definition timestamp (start_date end_date : Z) (v : string) : Prop :=
  ∃ d h m s ms : Z,
    start_date ≤ d ≤ end_date ∧ 0 ≤ h ≤ 23 ∧ 0 ≤ m ≤ 59 ∧ 0 ≤ s ≤ 59 ∧
    0 ≤ ms ≤ 999 ∧
    v = Py.strftime_Ymd d +:+ "T" +:+ Py.format_0d 2 h +:+ ":" +:+
        Py.format_0d 2 m +:+ ":" +:+ Py.format_0d 2 s +:+ "." +:+
        Py.format_0d 3 ms +:+ "Z".

Definition user_name (v : string) : Prop :=
  ∃ first last : string,
    first ∈ first_names ∧ last ∈ last_names ∧ v = first +:+ "_" +:+ last.

Definition os_version_of_some_device (v : string) : Prop :=
  ∃ (device : string) (versions : list string),
    OS_VERSIONS !! device = Some versions ∧ v ∈ versions.

Definition version (v : string) : Prop :=
  ∃ major minor patch : Z,
    1 ≤ major ≤ 3 ∧ 0 ≤ minor ≤ 9 ∧ 0 ≤ patch ≤ 9 ∧
    v = Py.str major +:+ "." +:+ Py.str minor +:+ "." +:+ Py.str patch.

Definition coordinate (proj : Q * Q → Q) (v : string) : Prop :=
  ∃ (city : Q * Q) (x : Q),
    city ∈ cities ∧ (proj city + -0.1 <= x)%Q ∧ (x <= proj city + 0.1)%Q ∧
    v = Py.format_f 4 x.

Definition Y2023 : Z * Z := (Py.date 2023 1 1, Py.date 2023 12 31).

(** The schema: every column with the domain its generator declares. *)
Definition field_specs : list (string * (string → Prop)) :=
  [("user_id", any_integer);
   ("age", integer 18 75);
   ("income", integer 20000 200000);
   ("is_active", one_of ["true"; "false"]);
   ("registration_date", day Y2023.1 Y2023.2);
   ("last_login_time", time_of_day);
   ("premium_tier", one_of PREMIUM_TIERS);
   ("country_code", one_of COUNTRIES);
   ("score", two_decimals 0.0 100.0);
   ("rating", two_decimals 1.0 5.0);
   ("has_verified_email", one_of ["true"; "false"]);
   ("username", user_name);
   ("created_at", timestamp Y2023.1 Y2023.2);
   ("login_count", integer 0 500);
   ("subscription_type", one_of SUBSCRIPTION_TYPES);
   ("payment_method", one_of PAYMENT_METHODS);
   ("account_balance", two_decimals 0.0 10000.0);
   ("monthly_spend", two_decimals 0.0 500.0);
   ("is_premium", one_of ["true"; "false"]);
   ("email_domain", one_of EMAIL_DOMAINS);
   ("join_date", day Y2023.1 Y2023.2);
   ("timezone", one_of timezones);
   ("last_purchase_date", timestamp Y2023.1 Y2023.2);
   ("referral_source", one_of REFERRAL_SOURCES);
   ("device_type", one_of DEVICE_TYPES);
   ("os_version", os_version_of_some_device);
   ("app_version", version);
   ("location_lat", coordinate fst);
   ("location_lng", coordinate snd);
   ("session_duration", at_least 300);
   ("page_views", at_least 5);
   ("conversion_rate", two_decimals 0.0 0.1);
   ("churn_probability", two_decimals 0.0 1.0)].

Lemma field_specs_headers : field_specs.*1 = headers.
Proof. reflexivity. Qed.

Definition in_domain (spec : string * (string → Prop)) (v : string) : Prop :=
  v ∈ null_types ∨ spec.2 v.

Lemma boolean_value_domain (w : W) :
  one_of ["true"; "false"] (fst (boolean_value w)).
Proof. by apply RandomFacts.choice_elem. Qed.

Lemma float_value_domain (lo hi : Q) (w : W) :
  (lo <= hi)%Q → two_decimals lo hi (fst (float_value lo hi w)).
Proof.
  intros Hle. unfold float_value. run.
  destruct (RandomFacts.uniform_range lo hi w Hle) as [H1 H2].
  rewrite E in H1, H2. by exists a.
Qed.

Lemma integer_value_domain (lo hi : Z) (w : W) :
  lo ≤ hi → integer lo hi (fst (integer_value lo hi w)).
Proof.
  intros Hle. unfold integer_value. run.
  pose proof (RandomFacts.randint_range lo hi w Hle) as Hr.
  rewrite E in Hr. by exists a.
Qed.

Lemma date_value_domain (s e : Z) (w : W) :
  s ≤ e → day s e (fst (date_value s e w)).
Proof.
  intros Hle. unfold date_value. run.
  pose proof (RandomFacts.randint_range 0 (e - s) w ltac:(lia)) as Hr.
  rewrite E in Hr. cbn [fst] in Hr. exists (s + a). split; [lia | done].
Qed.

Ltac range_of E a b :=
  match type of E with
  | Random.randint _ _ ?w = _ =>
      let Hr := fresh "Hr" in
      pose proof (RandomFacts.randint_range a b w ltac:(lia)) as Hr;
      rewrite E in Hr; cbn [fst] in Hr
  end.

Lemma time_value_domain (w : W) : time_of_day (fst (time_value w)).
Proof.
  unfold time_value. run.
  range_of E 0 23. range_of E0 0 59. range_of E1 0 59.
  by exists a, a0, a1.
Qed.

Lemma datetime_value_domain (s e : Z) (w : W) :
  s ≤ e → timestamp s e (fst (datetime_value s e w)).
Proof.
  intros Hle. unfold datetime_value. run.
  range_of E 0 (e - s). range_of E0 0 23. range_of E1 0 59.
  range_of E2 0 59. range_of E3 0 999.
  exists (s + a), a0, a1, a2, a3. repeat split; (lia || done).
Qed.

Lemma username_value_domain (w : W) : user_name (fst (username_value w)).
Proof.
  unfold username_value. run.
  exists a, a0. split_and!; [| |done].
  - pose proof (RandomFacts.choice_elem first_names w ltac:(done)) as Hc.
    by rewrite E in Hc.
  - pose proof (RandomFacts.choice_elem last_names w0 ltac:(done)) as Hc.
    by rewrite E0 in Hc.
Qed.

(** Each generator answers inside the domain of its column. *)

Lemma boolean_field (p : Q) (w w' : W) (v : string) :
  generate_boolean_with_null_probability p w = (v, w') →
  v ∈ null_types ∨ one_of ["true"; "false"] v.
Proof.
  intros E. change v with (fst (v, w')). rewrite <- E.
  apply (null_injector_domain (one_of ["true"; "false"])), boolean_value_domain.
Qed.

Lemma float_field (lo hi p : Q) (w w' : W) (v : string) :
  (lo <= hi)%Q →
  generate_float_with_null_probability lo hi p w = (v, w') →
  v ∈ null_types ∨ two_decimals lo hi v.
Proof.
  intros Hle E. change v with (fst (v, w')). rewrite <- E.
  apply (null_injector_domain (two_decimals lo hi)).
  intros w1. by apply float_value_domain.
Qed.

Lemma integer_field (lo hi : Z) (p : Q) (w w' : W) (v : string) :
  lo ≤ hi →
  generate_integer_with_null_probability lo hi p w = (v, w') →
  v ∈ null_types ∨ integer lo hi v.
Proof.
  intros Hle E. change v with (fst (v, w')). rewrite <- E.
  apply (null_injector_domain (integer lo hi)).
  intros w1. by apply integer_value_domain.
Qed.

Lemma date_field (s e : Z) (p : Q) (w w' : W) (v : string) :
  s ≤ e →
  generate_date_with_null_probability s e p w = (v, w') →
  v ∈ null_types ∨ day s e v.
Proof.
  intros Hle E. change v with (fst (v, w')). rewrite <- E.
  apply (null_injector_domain (day s e)).
  intros w1. by apply date_value_domain.
Qed.

Lemma time_field (p : Q) (w w' : W) (v : string) :
  generate_time_with_null_probability p w = (v, w') →
  v ∈ null_types ∨ time_of_day v.
Proof.
  intros E. change v with (fst (v, w')). rewrite <- E.
  apply (null_injector_domain time_of_day), time_value_domain.
Qed.

Lemma datetime_field (s e : Z) (p : Q) (w w' : W) (v : string) :
  s ≤ e →
  generate_datetime_with_null_probability s e p w = (v, w') →
  v ∈ null_types ∨ timestamp s e v.
Proof.
  intros Hle E. change v with (fst (v, w')). rewrite <- E.
  apply (null_injector_domain (timestamp s e)).
  intros w1. by apply datetime_value_domain.
Qed.

Lemma username_field (w w' : W) (v : string) :
  generate_username w = (v, w') → v ∈ null_types ∨ user_name v.
Proof.
  intros E. change v with (fst (v, w')). rewrite <- E.
  unfold generate_username, bind. destruct (random_random w) as [u w1].
  destruct (Py.Qltb u 0.8);
    [right; apply username_value_domain | left; apply null_types_choice].
Qed.

Lemma choice_field (l : list string) (w w' : W) (v : string) :
  l ≠ [] → Random.choice l w = (v, w') → one_of l v.
Proof.
  intros Hne E. change v with (fst (v, w')). rewrite <- E.
  by apply RandomFacts.choice_elem.
Qed.

Lemma os_version_field (device : string) (w0 w1 w2 : W) (v : string) :
  Random.choice DEVICE_TYPES w0 = (device, w1) →
  Random.choice (default ["Unknown"] (OS_VERSIONS !! device)) w1 = (v, w2) →
  ∃ versions, OS_VERSIONS !! device = Some versions ∧ v ∈ versions.
Proof.
  intros Ed Ev.
  assert (device ∈ DEVICE_TYPES) as Hd by (by eapply choice_field).
  assert (∃ versions, OS_VERSIONS !! device = Some versions ∧ versions ≠ [])
    as (versions & Hv & Hne).
  { unfold DEVICE_TYPES in Hd.
    repeat (apply elem_of_cons in Hd as [->|Hd]; [eexists; split; [reflexivity|done]|]).
    by apply elem_of_nil in Hd. }
  exists versions. split; [done|].
  rewrite Hv in Ev. cbn [default] in Ev. by eapply choice_field.
Qed.

Lemma app_version_field (w w' : W) (v : string) :
  generate_app_version w = (v, w') → version v.
Proof.
  intros E. change v with (fst (v, w')). rewrite <- E. clear E.
  unfold generate_app_version. run.
  range_of E 1 3. range_of E0 0 9. range_of E1 0 9.
  by exists a, a0, a1.
Qed.

Lemma coordinates_field (w w' : W) (lat lng : Q) :
  generate_realistic_coordinates w = ((lat, lng), w') →
  coordinate fst (Py.format_f 4 lat) ∧ coordinate snd (Py.format_f 4 lng).
Proof.
  unfold generate_realistic_coordinates. run. intros [= <- <- <-].
  assert (a ∈ cities) as Hc.
  { pose proof (RandomFacts.choice_elem cities w ltac:(done)) as Hc.
    by rewrite E in Hc. }
  destruct (RandomFacts.uniform_range (-0.1) 0.1 w0 ltac:(done)) as [H1 H2].
  destruct (RandomFacts.uniform_range (-0.1) 0.1 w1 ltac:(done)) as [H3 H4].
  rewrite E0 in H1, H2. rewrite E1 in H3, H4. cbn [fst] in *.
  split; exists a; eexists; (split; [exact Hc|]);
    (split; [|split; [|reflexivity]]); by apply Qplus_le_r.
Qed.

Lemma int_lower_bound (x : Q) (k : Z) :
  0 ≤ k → (inject_Z k <= x)%Q → k ≤ Py.int x.
Proof.
  destruct x as [n d]. unfold Qle, Py.int. cbn [Qnum Qden inject_Z].
  intros Hk Hle. apply Z.quot_le_lower_bound; lia.
Qed.

Lemma session_duration_field (w w' : W) (v : string) :
  generate_realistic_session_duration w = (v, w') → at_least 300 v.
Proof.
  intros E. change v with (fst (v, w')). rewrite <- E. clear E.
  unfold generate_realistic_session_duration. run.
  pose proof (np_random_exponential_nonneg 15 w) as Hx.
  rewrite E in Hx. cbn [fst] in Hx.
  eexists. split; [|reflexivity].
  apply int_lower_bound; [lia|].
  apply (Qle_trans _ ((0 + 5) * 60)); [done|].
  apply Qmult_le_compat_r; [|done]. by apply Qplus_le_l.
Qed.

Lemma page_views_field (w w' : W) (v : string) :
  generate_realistic_page_views w = (v, w') → at_least 5 v.
Proof.
  intros E. change v with (fst (v, w')). rewrite <- E. clear E.
  unfold generate_realistic_page_views. run.
  pose proof (np_random_exponential_nonneg 20 w) as Hx.
  rewrite E in Hx. cbn [fst] in Hx.
  eexists. split; [|reflexivity].
  apply int_lower_bound; [lia|].
  apply (Qle_trans _ (0 + 5)); [done|]. by apply Qplus_le_l.
Qed.

Lemma two_decimals_hundredths (lo hi : Q) (a b : Z) (v : string) :
  0 ≤ a → (inject_Z a <= lo * 100)%Q → (hi * 100 <= inject_Z b)%Q →
  two_decimals lo hi v →
  ∃ h : Z, a ≤ h ≤ b ∧ v = Py.fixed 2 false h.
Proof.
  intros Ha Hlo Hhi (x & Hx1 & Hx2 & ->).
  assert (inject_Z a <= x * 100)%Q as Hax.
  { eapply Qle_trans; [exact Hlo|]. by apply Qmult_le_compat_r. }
  assert (x * 100 <= inject_Z b)%Q as Hxb.
  { eapply Qle_trans; [|exact Hhi]. by apply Qmult_le_compat_r. }
  assert (0 <= x)%Q as Hx0.
  { apply (Qmult_le_r _ _ 100); [done|].
    eapply Qle_trans; [|exact Hax]. rewrite Qmult_0_l.
    unfold Qle. cbn. lia. }
  exists (Py.scaled 2 x). split.
  - unfold Py.scaled. apply PyFacts.round_half_even_bounds.
    + by rewrite Qabs_pos.
    + by rewrite Qabs_pos.
  - unfold Py.format_f. apply Qle_bool_iff in Hx0. by rewrite Hx0.
Qed.

(** C8.  Every value of a generated row is a null sentinel or lies in the
    domain its generator declares ([field_specs] lists the domains in
    header order).  In particular the age is the normal draw truncated to
    an integer and clamped to 18..75, so out-of-range draws land on the
    bounds, and a non-null rating is a two-decimal rendering of a number of
    hundredths between 1.00 and 5.00. *)
Theorem values_in_declared_domain (user_id : Z) (w : W) :
  let row := fst (generate_row user_id w) in
  Forall2 in_domain field_specs row ∧
  (∃ n : Z,
     n = Z.max 18 (Z.min 75 (Py.int (fst (np_random_normal 35 12 w)))) ∧
     18 ≤ n ≤ 75 ∧ column "age" row = Some (Py.str n)) ∧
  (∃ v : string,
     column "rating" row = Some v ∧
     (v ∈ null_types ∨ ∃ h : Z, 100 ≤ h ≤ 500 ∧ v = Py.fixed 2 false h)).
Proof.
  unfold generate_row. run.
  match goal with
  | E : generate_realistic_rating _ = (?v, _) |- _ =>
      assert (v ∈ null_types ∨ two_decimals 1.0 5.0 v) as Hrating
        by (by eapply float_field);
      set (rating := v) in *
  end.
  split; [|split].
  - unfold field_specs, in_domain, Y2023.
    repeat (apply Forall2_cons; split); [..|apply Forall2_nil_2]; cbn [fst snd].
    all: try (right; eexists; split; [|reflexivity]; lia).
    all: try (right; by eexists).
    all: try (by eapply boolean_field).
    all: try (by eapply date_field).
    all: try (by eapply time_field).
    all: try (by eapply datetime_field).
    all: try (by eapply float_field).
    all: try (by eapply integer_field).
    all: try (right; by eapply choice_field).
    all: try (by eapply username_field).
    all: try (right; by eapply app_version_field).
    all: try (right; by eapply session_duration_field).
    all: try (right; by eapply page_views_field).
    + right. eexists. by eapply os_version_field.
    + right. by eapply coordinates_field.
    + right. by eapply coordinates_field.
  - eexists. split; [reflexivity|]. split; [lia|].
    match goal with
    | E : generate_realistic_age _ = _ |- _ =>
        unfold generate_realistic_age in E; revert E; run; intros [= <- <-]
    end.
    by columns.
  - exists rating. split; [by columns|].
    destruct Hrating as [?|Hr]; [by left|right].
    by eapply (two_decimals_hundredths 1.0 5.0).
Qed.

(** C3.  In every generated row the os_version value belongs to the list
    [OS_VERSIONS] maps the row's device_type value to, and it is drawn from
    the state [w1] that the draw of device_type left: device_type is
    sampled first, then os_version from the list selected by it. *)
Theorem os_version_matches_device_type (user_id : Z) (w : W) :
  let row := fst (generate_row user_id w) in
  ∃ (w0 w1 w2 : W) (device os : string) (versions : list string),
    Random.choice DEVICE_TYPES w0 = (device, w1) ∧
    OS_VERSIONS !! device = Some versions ∧
    Random.choice versions w1 = (os, w2) ∧
    os ∈ versions ∧
    column "device_type" row = Some device ∧
    column "os_version" row = Some os.
Proof.
  unfold generate_row. run.
  match goal with
  | Ed : Random.choice DEVICE_TYPES ?w0 = (?device, ?w1),
    Eo : Random.choice (default _ _) ?w1 = (?os, ?w2) |- _ =>
      destruct (os_version_field _ _ _ _ _ Ed Eo) as (versions & Hv & Hin);
      rewrite Hv in Eo; cbn [default] in Eo;
      exists w0, w1, w2, device, os, versions
  end.
  split_and!; try done; by columns.
Qed.

(** C6 (as the code has it).  The income value is the log-normal sample,
    times 1000 and truncated to an integer, clamped to 20000..200000; the
    sample is drawn from the state the age draw left. *)
Theorem income_is_clamped (user_id : Z) (w : W) :
  let row := fst (generate_row user_id w) in
  let w1 := snd (generate_realistic_age w) in
  let sample := fst (generate_realistic_income w1) in
  sample = Py.int (fst (np_random_lognormal 10.5 0.5 w1) * 1000) ∧
  column "income" row = Some (Py.str (Z.max 20000 (Z.min 200000 sample))) ∧
  20000 ≤ Z.max 20000 (Z.min 200000 sample) ≤ 200000.
Proof.
  unfold generate_row. run. split; [|split; [by columns | lia]].
  match goal with
  | E : generate_realistic_income _ = _ |- _ =>
      unfold generate_realistic_income in E; revert E; run; by intros [= <- <-]
  end.
Qed.

(** *** The rows [main] writes *)

Inductive line_kind :=
  | DataRow (user_id : string)
  | EmptyRow
  | GarbageRow.

#[global] Instance line_kind_eq_dec : EqDecision line_kind.
Proof. solve_decision. Defined.

Definition is_garbage_row (row : list string) : bool :=
  match row with
  | text :: rest =>
      bool_decide (text ∈ garbage_lines) &&
      bool_decide (rest = replicate (length headers - 1) "")
  | [] => false
  end.

(** What a written row is, read off the row itself. *)
Definition classify (row : list string) : line_kind :=
  if bool_decide (row = empty_row) then EmptyRow
  else if is_garbage_row row then GarbageRow
  else DataRow (default "" (head row)).

(** The kinds of the rows iteration [i] writes, in order. *)
Definition block (E G i : Z) : list line_kind :=
  [DataRow (Py.str i)] ++
  (if i mod E =? 0 then [EmptyRow] else []) ++
  (if i mod G =? 0 then [GarbageRow] else []).

Definition layout (N E G : Z) : list line_kind :=
  concat (block E G <$> seqZ 1 N).

Definition count_kind (k : line_kind) (rows : list (list string)) : Z :=
  Z.of_nat (length (filter (λ r, classify r = k) rows)).

Lemma generate_row_kind (i : Z) (w : W) :
  classify (fst (generate_row i w)) = DataRow (Py.str i).
Proof.
  unfold generate_row. run. unfold classify.
  rewrite bool_decide_eq_false_2.
  2: { intros Heq. apply (f_equal head) in Heq.
       change (Some (Py.str i) = Some "") in Heq.
       injection Heq. apply PyFacts.str_nonempty. }
  cbn [is_garbage_row].
  rewrite (bool_decide_eq_false_2 (_ = replicate _ _)).
  2: { intros Heq. apply (f_equal head) in Heq.
       change (head (replicate (length headers - 1) "")) with (Some "") in Heq.
       cbn [head] in Heq. injection Heq. apply PyFacts.str_nonempty. }
  by rewrite andb_false_r.
Qed.

Lemma garbage_row_shape (w : W) :
  ∃ text : string,
    text ∈ garbage_lines ∧
    fst (garbage_row w) = text :: replicate (length headers - 1) "".
Proof.
  unfold garbage_row. run. exists a. split; [|done].
  pose proof (RandomFacts.choice_elem garbage_lines w ltac:(done)) as Hc.
  by rewrite E in Hc.
Qed.

Lemma garbage_row_kind (w : W) : classify (fst (garbage_row w)) = GarbageRow.
Proof.
  destruct (garbage_row_shape w) as (text & Hin & ->).
  unfold classify. rewrite bool_decide_eq_false_2.
  2: { intros Heq. apply (f_equal head) in Heq.
       change (Some text = Some "") in Heq. injection Heq as ->.
       revert Hin. change ("" ∉ garbage_lines).
       apply (bool_decide_unpack _). by vm_compute. }
  cbn [is_garbage_row]. by rewrite !bool_decide_eq_true_2.
Qed.

Lemma write_iteration_rows (E G i : Z) (w : W) :
  ∃ w1 w2 : W,
    fst (write_iteration E G i w) =
    [fst (generate_row i w)] ++
    (if i mod E =? 0 then [empty_row] else []) ++
    (if i mod G =? 0 then [fst (garbage_row w1)] else []) ∧
    snd (write_iteration E G i w) = w2.
Proof.
  unfold write_iteration, bind, ret.
  destruct (generate_row i w) as [row w1]. exists w1.
  destruct (i mod G =? 0).
  - destruct (garbage_row w1) as [r w2]. by exists w2.
  - by exists w1.
Qed.

Lemma write_iteration_layout (E G i : Z) (w : W) :
  classify <$> fst (write_iteration E G i w) = block E G i.
Proof.
  destruct (write_iteration_rows E G i w) as (w1 & w2 & -> & _).
  unfold block. rewrite !fmap_app. cbn [fmap list_fmap].
  rewrite generate_row_kind.
  destruct (i mod E =? 0), (i mod G =? 0); cbn [fmap list_fmap app];
    by rewrite ?garbage_row_kind.
Qed.

Lemma write_rows_layout (E G : Z) (indices : list Z) (w : W) :
  classify <$> fst (write_rows E G indices w) = concat (block E G <$> indices).
Proof.
  revert w. induction indices as [|i rest IH]; intros w; [done|].
  cbn [write_rows]. unfold bind, ret.
  pose proof (write_iteration_layout E G i w) as Hi.
  destruct (write_iteration E G i w) as [written w1].
  specialize (IH w1). destruct (write_rows E G rest w1) as [more w2].
  cbn [fst] in *. by rewrite fmap_app, Hi, IH.
Qed.

Lemma main_rows_layout (N E G : Z) (w : W) :
  classify <$> fst (main_rows N E G w) = layout N E G.
Proof. apply write_rows_layout. Qed.

Lemma div_succ (D n : Z) :
  0 < D → 0 ≤ n →
  (n + 1) / D = n / D + (if (n + 1) mod D =? 0 then 1 else 0).
Proof.
  intros HD Hn.
  pose proof (Z.div_mod n D ltac:(lia)) as H1.
  pose proof (Z.mod_pos_bound n D HD) as H2.
  pose proof (Z.div_mod (n + 1) D ltac:(lia)) as H3.
  pose proof (Z.mod_pos_bound (n + 1) D HD) as H4.
  set (q := n / D) in *. set (r := n mod D) in *.
  set (q' := (n + 1) / D) in *. set (r' := (n + 1) mod D) in *.
  destruct (Z.eqb_spec r' 0) as [Hr|Hr].
  - assert (q' - q < 2) by nia. assert (0 < q' - q) by nia. lia.
  - assert (q' - q < 1) by nia. assert (-1 < q' - q) by nia. lia.
Qed.

Lemma layout_count (k : line_kind) (D N E G : Z) :
  0 < D → 0 ≤ N →
  (∀ i, length (filter (λ x, x = k) (block E G i)) =
        if i mod D =? 0 then 1%nat else 0%nat) →
  Z.of_nat (length (filter (λ x, x = k) (layout N E G))) = N / D.
Proof.
  intros HD HN Hblock. rewrite <- (Z2Nat.id N HN).
  generalize (Z.to_nat N) as n. clear N HN.
  induction n as [|n IH]; [done|].
  unfold layout in *. rewrite seqZ_S, fmap_app, concat_app, filter_app, length_app.
  cbn [fmap list_fmap concat]. rewrite app_nil_r, Hblock, Nat2Z.inj_add, IH.
  replace (Z.of_nat (S n)) with (Z.of_nat n + 1) by lia.
  rewrite (div_succ D (Z.of_nat n)) by lia.
  replace (1 + Z.of_nat n) with (Z.of_nat n + 1) by lia.
  by destruct ((Z.of_nat n + 1) mod D =? 0).
Qed.

Lemma count_kind_layout (k : line_kind) (rows : list (list string)) :
  count_kind k rows =
  Z.of_nat (length (filter (λ x, x = k) (classify <$> rows))).
Proof.
  unfold count_kind. f_equal.
  induction rows as [|r rows IH]; [done|].
  cbn [fmap list_fmap]. rewrite !filter_cons.
  destruct (decide (classify r = k)); cbn [length]; by rewrite IH.
Qed.

Lemma block_empty_rows (E G i : Z) :
  length (filter (λ x, x = EmptyRow) (block E G i)) =
  if i mod E =? 0 then 1%nat else 0%nat.
Proof. unfold block. by destruct (i mod E =? 0), (i mod G =? 0). Qed.

Lemma block_garbage_rows (E G i : Z) :
  length (filter (λ x, x = GarbageRow) (block E G i)) =
  if i mod G =? 0 then 1%nat else 0%nat.
Proof. unfold block. by destruct (i mod E =? 0), (i mod G =? 0). Qed.

Lemma block_length (E G i : Z) :
  Z.of_nat (length (block E G i)) =
  1 + (if i mod E =? 0 then 1 else 0) + (if i mod G =? 0 then 1 else 0).
Proof. unfold block. by destruct (i mod E =? 0), (i mod G =? 0). Qed.

Lemma layout_length (N E G : Z) :
  0 < E → 0 < G → 0 ≤ N →
  Z.of_nat (length (layout N E G)) = N + N / E + N / G.
Proof.
  intros HE HG HN. rewrite <- (Z2Nat.id N HN).
  generalize (Z.to_nat N) as n. clear N HN.
  induction n as [|n IH]; [done|].
  unfold layout in *. rewrite seqZ_S, fmap_app, concat_app, length_app.
  cbn [fmap list_fmap concat]. rewrite app_nil_r, Nat2Z.inj_add, IH, block_length.
  replace (Z.of_nat (S n)) with (Z.of_nat n + 1) by lia.
  rewrite (div_succ E (Z.of_nat n)), (div_succ G (Z.of_nat n)) by lia.
  replace (1 + Z.of_nat n) with (Z.of_nat n + 1) by lia. lia.
Qed.

(** Where iteration [i] lands in the output. *)
Lemma layout_offset (N E G i : Z) :
  0 < E → 0 < G → 1 ≤ i ≤ N →
  ∃ before after : list line_kind,
    layout N E G = before ++ block E G i ++ after ∧
    Z.of_nat (length before) = (i - 1) + (i - 1) / E + (i - 1) / G.
Proof.
  intros HE HG Hi.
  exists (layout (i - 1) E G), (concat (block E G <$> seqZ (i + 1) (N - i))).
  split; [|apply layout_length; lia].
  unfold layout.
  replace N with ((i - 1) + (1 + (N - i))) at 1 by lia.
  rewrite seqZ_app by lia. rewrite (seqZ_app _ 1) by lia.
  rewrite !fmap_app, !concat_app.
  replace (1 + (i - 1)) with i by lia.
  change (seqZ i 1) with [i]. cbn [fmap list_fmap concat].
  by rewrite app_nil_r.
Qed.

(** C5 (as the code has it).  For [N] data rows, an empty-row interval
    [E] and a garbage interval [G], the rows handed to the writer are, for
    i = 1..N in turn: data row i, then an empty row when E divides i, then
    a garbage row when G divides i.  So the empty row comes immediately
    after the data row, and the garbage row after the data row and after
    the empty row of the same iteration when there is one.  The rows of
    iteration i start at offset (i-1) + (i-1)/E + (i-1)/G.  There are
    exactly N/E empty rows and N/G garbage rows. *)
Theorem empty_and_garbage_rows (N E G : Z) (w : W) :
  0 ≤ N → 0 < E → 0 < G →
  let rows := fst (main_rows N E G w) in
  classify <$> rows = layout N E G ∧
  (∀ i : Z, 1 ≤ i ≤ N →
     ∃ before after : list line_kind,
       classify <$> rows = before ++ block E G i ++ after ∧
       Z.of_nat (length before) = (i - 1) + (i - 1) / E + (i - 1) / G) ∧
  count_kind EmptyRow rows = N / E ∧
  count_kind GarbageRow rows = N / G.
Proof.
  intros HN HE HG rows. subst rows.
  rewrite !count_kind_layout, main_rows_layout. split_and!; [done| | |].
  - intros i Hi. by apply layout_offset.
  - apply layout_count; [done..|]. apply block_empty_rows.
  - apply layout_count; [done..|]. apply block_garbage_rows.
Qed.

Definition commas32 : string := ",,,,,,,,,,,,,,,,,,,,,,,,,,,,,,,,".

(** C7 (as the code has it).  When the garbage interval divides [i], the
    last row iteration [i] writes is a garbage row; it has as many fields
    as the header: one of the five garbage texts followed by 32 empty
    fields, and the writer renders it as the text followed by 32 commas. *)
Theorem garbage_row_is_full_width (E G i : Z) (w : W) :
  i mod G = 0 →
  ∃ (before : list (list string)) (text : string),
    fst (write_iteration E G i w) = before ++ [text :: replicate 32 ""] ∧
    text ∈ garbage_lines ∧
    length (text :: replicate 32 "") = length headers ∧
    Csv.writerow (text :: replicate 32 "") =
      text +:+ commas32 +:+ Csv.lineterminator.
Proof.
  intros Hi. destruct (write_iteration_rows E G i w) as (w1 & w2 & -> & _).
  apply Z.eqb_eq in Hi. rewrite Hi.
  destruct (garbage_row_shape w1) as (text & Hin & ->).
  eexists (_ :: _), text. rewrite app_assoc. split; [reflexivity|].
  split; [done|]. split; [done|].
  unfold garbage_lines in Hin.
  repeat (apply elem_of_cons in Hin as [->|Hin]; [by vm_compute|]).
  by apply elem_of_nil in Hin.
Qed.

End Rows.

(** *** Concrete runs on scripted draws *)

(** At the constants of the C5 scenario the rows around data row 10000
    are: the data row, the empty row, the garbage row.  The garbage row is
    not the row immediately after the data row. *)
Lemma garbage_row_follows_empty_row :
  let rows := fst (main_rows 20000 5000 10000 (Scripted.World [] [])) in
  ∃ before after : list line_kind,
    classify <$> rows =
      before ++ [DataRow "10000"; EmptyRow; GarbageRow] ++ after ∧
    Z.of_nat (length before) = 10000.
Proof.
  cbv zeta. rewrite main_rows_layout.
  apply (layout_offset 20000 5000 10000 10000); lia.
Qed.

Lemma empty_and_garbage_rows_witness :
  let rows := fst (main_rows 20000 5000 10000 (Scripted.World [] [])) in
  count_kind EmptyRow rows = 4 ∧ count_kind GarbageRow rows = 2.
Proof.
  apply (empty_and_garbage_rows 20000 5000 10000 (Scripted.World [] [])); lia.
Defined.

(** A typical log-normal sample (36315.5, that is an income of 36315500
    before the clamp) is written as 200000. *)
Lemma income_clamp_counterexample :
  let w := Scripted.World [] [36.7; 36315.5]%Q in
  let sample := fst (generate_realistic_income (snd (generate_realistic_age w))) in
  sample = 36315500 ∧
  Py.str sample = "36315500" ∧
  column "income" (fst (generate_row 1 w)) = Some "200000".
Proof. by vm_compute. Qed.

(** Iteration 10000 of the loop of [main]: the garbage row it writes has
    33 fields, not one. *)
Lemma garbage_row_counterexample :
  let rows := fst (write_iteration 5000 10000 10000 (Scripted.World [] [])) in
  let text := "This is a garbage line that should be ignored" in
  last rows = Some (text :: replicate 32 "") ∧
  length (text :: replicate 32 "") = 33%nat ∧
  Csv.writerow (text :: replicate 32 "") =
    text +:+ commas32 +:+ Csv.lineterminator.
Proof. by vm_compute. Qed.

Lemma garbage_row_is_full_width_witness :
  ∃ (before : list (list string)) (text : string),
    fst (write_iteration 5000 10000 10000 (Scripted.World [] [])) =
      before ++ [text :: replicate 32 ""] ∧
    text ∈ garbage_lines ∧
    length (text :: replicate 32 "") = length headers ∧
    Csv.writerow (text :: replicate 32 "") =
      text +:+ commas32 +:+ Csv.lineterminator.
Proof.
  apply (garbage_row_is_full_width 5000 10000 10000 (Scripted.World [] [])).
  reflexivity.
Defined.

End LargeTestDataProps.

(** ** Records of [generate_large_dataset.py] *)

Module LargeDatasetProps.
Import LargeDataset.

(** Where an identifier comes from: the counter value [b] of a base
    record, or the [k]-th copy of the base record numbered [b]. *)
Inductive origin :=
  | Base (b : Z)
  | Copy (b k : Z).

Definition ident_of (o : origin) : ident :=
  match o with
  | Base b => IntId b
  | Copy b k => StrId (Py.str b +:+ "_dup_" +:+ Py.str k)
  end.

Definition base_of (o : origin) : Z :=
  match o with
  | Base b => b
  | Copy b _ => b
  end.

(** The identifier as it is written in the CSV file. *)
Definition written_id (r : record) : string := format_ident (record_id r).

Lemma written_origin_inj (o1 o2 : origin) :
  format_ident (ident_of o1) = format_ident (ident_of o2) → o1 = o2.
Proof.
  destruct o1 as [b1|b1 k1], o2 as [b2|b2 k2]; cbn [ident_of format_ident].
  - intros Heq. by apply PyFacts.str_inj in Heq as ->.
  - intros Heq. exfalso.
    change ("_dup_" +:+ Py.str k2) with ("_" +:+ ("dup_" +:+ Py.str k2)) in Heq.
    by eapply PyFacts.plain_not_separated; [apply PyFacts.str_plain | exact Heq].
  - intros Heq. exfalso. symmetry in Heq.
    change ("_dup_" +:+ Py.str k1) with ("_" +:+ ("dup_" +:+ Py.str k1)) in Heq.
    by eapply PyFacts.plain_not_separated; [apply PyFacts.str_plain | exact Heq].
  - intros Heq.
    change ("_dup_" +:+ Py.str k1) with ("_" +:+ ("dup_" +:+ Py.str k1)) in Heq.
    change ("_dup_" +:+ Py.str k2) with ("_" +:+ ("dup_" +:+ Py.str k2)) in Heq.
    apply PyFacts.plain_separated_inj in Heq as [Hb Hk];
      [|apply PyFacts.str_plain..].
    apply PyFacts.str_inj in Hb as ->.
    rewrite !PyFacts.append_cons, !PyFacts.append_nil in Hk.
    injection Hk as Hk. by apply PyFacts.str_inj in Hk as ->.
Qed.

#[global] Instance written_origin_Inj : Inj (=) (=) (format_ident ∘ ident_of).
Proof. intros o1 o2. apply written_origin_inj. Qed.

Lemma append_inv_head (p s t : string) : p +:+ s = p +:+ t → s = t.
Proof.
  induction p as [|c p IH]; [done|].
  rewrite !PyFacts.append_cons. intros [= Heq]. by apply IH.
Qed.

(** All fields but the identifier. *)
Definition same_data (d base : record) : Prop :=
  group_id d = group_id base ∧ name d = name base ∧ age d = age base ∧
  salary d = salary base ∧ is_active d = is_active base ∧
  created_date d = created_date base ∧ department d = department base ∧
  rating d = rating base.

Definition duplicate_id (base : record) (k : Z) : ident :=
  StrId (format_ident (record_id base) +:+ "_dup_" +:+ Py.str k).

Lemma duplicate_id_inj (base : record) (j k : Z) :
  duplicate_id base j = duplicate_id base k → j = k.
Proof.
  unfold duplicate_id. intros [= Heq].
  apply append_inv_head, append_inv_head in Heq. by apply PyFacts.str_inj.
Qed.

Lemma create_duplicate_records_ids (base : record) (n : Z) :
  record_id <$> create_duplicate_records base n =
  duplicate_id base <$> seqZ 1 n.
Proof.
  unfold create_duplicate_records.
  replace (seqZ 1 n) with (Z.add 1 <$> seqZ 0 n) by (by rewrite fmap_add_seqZ).
  rewrite <- !list_fmap_compose.
  apply list_fmap_ext. intros _ i _. cbn. unfold duplicate_id.
  by rewrite (Z.add_comm i 1).
Qed.

Lemma create_duplicate_records_length (base : record) (n : Z) :
  length (create_duplicate_records base n) = Z.to_nat n.
Proof. unfold create_duplicate_records. by rewrite length_fmap, length_seqZ. Qed.

Lemma create_duplicate_records_NoDup (base : record) (n : Z) :
  NoDup (record_id <$> create_duplicate_records base n).
Proof.
  rewrite create_duplicate_records_ids.
  apply NoDup_fmap_2_strong; [|apply NoDup_seqZ].
  intros j k _ _. apply duplicate_id_inj.
Qed.

Lemma create_duplicate_records_lookup (base : record) (n k : Z) :
  1 ≤ k ≤ n →
  ∃ d : record,
    create_duplicate_records base n !! Z.to_nat (k - 1) = Some d ∧
    same_data d base ∧
    record_id d = duplicate_id base k.
Proof.
  intros Hk. unfold create_duplicate_records.
  rewrite list_lookup_fmap, lookup_seqZ_lt by lia. cbn.
  eexists. split; [reflexivity|]. split; [by repeat split|].
  unfold duplicate_id. cbn [record_id set_record_id].
  by replace (0 + Z.of_nat (Z.to_nat (k - 1)) + 1) with k by lia.
Qed.

Section Records.
Context {W : Type} `{PyRandom W}.

Lemma generate_record_ids (now : Z) (gid : string) (c : Z) (w : W) :
  record_id (fst (generate_record now gid c w)) = IntId c ∧
  group_id (fst (generate_record now gid c w)) = gid.
Proof. unfold generate_record. by run. Qed.

Lemma base_records_spec (now : Z) (gid : string) (indices : list Z)
    (acc : list record) (c : Z) (w : W) :
  ∃ new : list record,
    fst (base_records now gid indices acc c w) =
      (acc ++ new, c + Z.of_nat (length indices)) ∧
    record_id <$> new = IntId <$> seqZ c (Z.of_nat (length indices)) ∧
    Forall (λ r, group_id r = gid) new.
Proof.
  revert acc c w. induction indices as [|i rest IH]; intros acc c w.
  - exists []. cbn. by rewrite app_nil_r, Z.add_0_r.
  - cbn [base_records]. unfold bind.
    destruct (generate_record_ids now gid c w) as [Hid Hgid].
    destruct (generate_record now gid c w) as [r w1]. cbn [fst] in Hid, Hgid.
    destruct (IH (acc ++ [r]) (c + 1) w1) as (new & -> & Hids & Hgids).
    exists (r :: new). split_and!.
    + rewrite <- app_assoc. cbn [length app]. f_equal. lia.
    + cbn [length]. rewrite seqZ_cons by lia. cbn [fmap list_fmap].
      rewrite Hid. f_equal. rewrite Hids. do 2 f_equal; lia.
    + by constructor.
Qed.

(** The records of one group: the base records, numbered by the counter
    from [c] on, then either nothing or the copies of one of them; the
    counter ends after everything that was added. *)
Lemma generate_group_spec (now group_num c : Z) (w : W) :
  ∃ (bases duplicates : list record) (m : Z),
    fst (generate_group now group_num c w) =
      (bases ++ duplicates, c + m + Z.of_nat (length duplicates)) ∧
    1 ≤ m ≤ 50 ∧ Z.of_nat (length bases) = m ∧
    record_id <$> bases = IntId <$> seqZ c m ∧
    Forall (λ r, group_id r = "GROUP_" +:+ Py.format_0d 3 group_num) bases ∧
    (duplicates = [] ∨
     ∃ (base : record) (n : Z),
       base ∈ bases ∧ 1 ≤ n ≤ 5 ∧
       duplicates = create_duplicate_records base n).
Proof.
  unfold generate_group, bind.
  pose proof (RandomFacts.randint_range 1 50 w ltac:(lia)) as Hsize.
  destruct (Random.randint 1 50 w) as [group_size w1]. cbn [fst] in Hsize.
  destruct (base_records_spec now ("GROUP_" +:+ Py.format_0d 3 group_num)
              (seqZ 0 group_size) [] c w1) as (bases & Hb & Hids & Hgids).
  destruct (base_records _ _ _ _ _ w1) as [[group_records c'] w2].
  cbn [fst] in Hb. injection Hb as -> ->. cbn [app] in *.
  rewrite length_seqZ, Z2Nat.id in * by lia.
  assert (Z.of_nat (length bases) = group_size) as Hlen.
  { apply (f_equal length) in Hids. rewrite !length_fmap, length_seqZ in Hids. lia. }
  destruct (random_random w2) as [u w3].
  destruct (Py.Qltb u DUPLICATE_RATIO).
  - pose proof (RandomFacts.choice_elem bases w3) as Hbase.
    destruct (Random.choice bases w3) as [base w4]. cbn [fst] in Hbase.
    pose proof (RandomFacts.randint_range 1 5 w4 ltac:(lia)) as Hn.
    destruct (Random.randint 1 5 w4) as [n w5]. cbn [fst ret] in *.
    exists bases, (create_duplicate_records base n), group_size.
    split_and!; try done; try lia.
    + rewrite create_duplicate_records_length. do 2 f_equal. lia.
    + right. exists base, n. split_and!; try done; try lia.
      apply Hbase. intros ->. cbn in Hlen. lia.
  - exists bases, [], group_size. cbn [ret fst length].
    rewrite app_nil_r. split_and!; try done; try lia; [f_equal; lia | by left].
Qed.

End Records.

(** *** Identifiers across the dataset *)

Definition int_id (v : ident) : option Z :=
  match v with
  | IntId b => Some b
  | StrId _ => None
  end.

(** The integer identifiers, in the order of the records. *)
Definition base_ids (records : list record) : list Z :=
  omap int_id (record_id <$> records).

(** The loop invariant of [generate_large_dataset]: every identifier
    written so far is a base number below the counter [c] or a copy of
    one, no origin occurs twice, the base numbers increase, and the counter
    has advanced once per record. *)
Definition tracked (records : list record) (c : Z) : Prop :=
  ∃ os : list origin,
    record_id <$> records = ident_of <$> os ∧
    NoDup os ∧
    Forall (λ o, 1 ≤ base_of o < c) os ∧
    StronglySorted Z.lt (base_ids records) ∧
    c = 1 + Z.of_nat (length records).

Lemma seqZ_sorted (c m : Z) : StronglySorted Z.lt (seqZ c m).
Proof.
  destruct (decide (m ≤ 0)) as [?|Hm]; [rewrite seqZ_nil by lia; constructor|].
  rewrite <- (Z2Nat.id m) by lia. generalize (Z.to_nat m) as n. clear.
  induction n as [|n IH]; [constructor|].
  rewrite seqZ_S. apply StronglySorted_app. split_and!; [|done|repeat constructor].
  intros x1 x2 Hx1%elem_of_seqZ Hx2%list_elem_of_singleton. lia.
Qed.

Lemma base_ids_app (l1 l2 : list record) :
  base_ids (l1 ++ l2) = base_ids l1 ++ base_ids l2.
Proof. unfold base_ids. by rewrite fmap_app, omap_app. Qed.

Lemma omap_int_id_bases (l : list Z) : omap int_id (IntId <$> l) = l.
Proof. induction l as [|x l IH]; [done|]. cbn. by rewrite IH. Qed.

Lemma omap_int_id_copies (base : record) (l : list Z) :
  omap int_id (duplicate_id base <$> l) = [].
Proof. by induction l. Qed.

Lemma tracked_base_ids_below (records : list record) (c b : Z) :
  tracked records c → b ∈ base_ids records → b < c.
Proof.
  intros (os & Hids & _ & Hlt & _) Hb. unfold base_ids in Hb.
  rewrite Hids in Hb. apply list_elem_of_omap in Hb as (v & Hv & Hb).
  apply list_elem_of_fmap in Hv as (o & -> & Ho).
  rewrite Forall_forall in Hlt. specialize (Hlt o Ho).
  destruct o; cbn in *; simplify_eq. lia.
Qed.

Lemma tracked_group (records bases duplicates : list record) (c m : Z) :
  tracked records c →
  1 ≤ m → Z.of_nat (length bases) = m →
  record_id <$> bases = IntId <$> seqZ c m →
  (duplicates = [] ∨
   ∃ (base : record) (n : Z),
     base ∈ bases ∧ 1 ≤ n ≤ 5 ∧ duplicates = create_duplicate_records base n) →
  tracked (records ++ bases ++ duplicates)
          (c + m + Z.of_nat (length duplicates)).
Proof.
  intros Htr Hm Hlen Hbases Hdups.
  assert (∃ (b : Z) (ks : list Z),
            c ≤ b < c + m ∧ NoDup ks ∧
            record_id <$> duplicates = ident_of <$> (Copy b <$> ks) ∧
            base_ids duplicates = [])
    as (b & ks & Hb & Hks & Hdid & Hdbase).
  { destruct Hdups as [->|(base & n & Hin & Hn & ->)].
    { exists c, []. split_and!; [lia..|constructor|done|done]. }
    apply (list_elem_of_fmap_2 record_id) in Hin. rewrite Hbases in Hin.
    apply list_elem_of_fmap in Hin as (b & Hid & Hb%elem_of_seqZ).
    exists b, (seqZ 1 n). split_and!; [lia..|apply NoDup_seqZ| |].
    - rewrite create_duplicate_records_ids, <- list_fmap_compose.
      apply list_fmap_ext. intros _ k _. cbn. unfold duplicate_id.
      by rewrite Hid.
    - unfold base_ids. rewrite create_duplicate_records_ids.
      apply omap_int_id_copies. }
  pose proof (tracked_base_ids_below records c) as Hbelow.
  specialize (Hbelow) with (1 := Htr).
  destruct Htr as (os & Hids & Hnd & Hlt & Hsorted & Hc).
  exists (os ++ (Base <$> seqZ c m) ++ (Copy b <$> ks)). split_and!.
  - rewrite !fmap_app, Hids, Hbases, Hdid. f_equal. f_equal.
    by rewrite <- list_fmap_compose.
  - rewrite Forall_forall in Hlt.
    apply NoDup_app. split_and!; [done| |].
    { intros o Ho Hnew. specialize (Hlt o Ho).
      apply elem_of_app in Hnew as [Hnew|Hnew];
        apply list_elem_of_fmap in Hnew as (x & -> & Hx); cbn in Hlt;
        [apply elem_of_seqZ in Hx|]; lia. }
    apply NoDup_app. split_and!.
    + apply NoDup_fmap_2; [by intros ?? [=]|apply NoDup_seqZ].
    + intros o (x & -> & _)%list_elem_of_fmap (k & [=] & _)%list_elem_of_fmap.
    + apply NoDup_fmap_2; [by intros ?? [=]|done].
  - rewrite !Forall_app. split_and!.
    + eapply Forall_impl; [exact Hlt|]. cbn. lia.
    + apply Forall_fmap, Forall_forall. intros x Hx%elem_of_seqZ. cbn. lia.
    + apply Forall_fmap, Forall_forall. intros k _. cbn. lia.
  - rewrite !base_ids_app, Hdbase, app_nil_r.
    unfold base_ids at 2. rewrite Hbases, omap_int_id_bases.
    apply StronglySorted_app. split_and!; [|done|apply seqZ_sorted].
    intros x1 x2 Hx1%Hbelow Hx2%elem_of_seqZ. lia.
  - rewrite !length_app. lia.
Qed.

Section Dataset.
Context {W : Type} `{PyRandom W}.

Lemma generate_group_tracked (now group_num c : Z) (records : list record) (w : W) :
  tracked records c →
  tracked (records ++ (fst (generate_group now group_num c w)).1)
          (fst (generate_group now group_num c w)).2.
Proof.
  intros Htr.
  destruct (generate_group_spec now group_num c w)
    as (bases & duplicates & m & -> & Hm & Hlen & Hids & _ & Hdups).
  cbn [fst snd]. apply tracked_group; (done || lia).
Qed.

Lemma generate_groups_tracked (now : Z) (group_nums : list Z)
    (records : list record) (c : Z) (w : W) :
  tracked records c →
  tracked (fst (generate_groups now group_nums records c w)).1
          (fst (generate_groups now group_nums records c w)).2.
Proof.
  revert records c w. induction group_nums as [|g rest IH]; intros records c w Htr.
  - done.
  - cbn [generate_groups]. unfold bind.
    pose proof (generate_group_tracked now g c records w Htr) as Hg.
    destruct (generate_group now g c w) as [[group_records c'] w1].
    cbn [fst snd] in Hg. by apply IH.
Qed.

Lemma tracked_start : tracked [] 1.
Proof. exists []. split_and!; (done || constructor). Qed.

Lemma unshuffled_dataset_tracked (now num_groups : Z) (w : W) :
  tracked (fst (unshuffled_dataset now num_groups w))
          (fst (generate_groups now (seqZ 0 num_groups) [] 1 w)).2.
Proof.
  unfold unshuffled_dataset, bind, ret.
  pose proof (generate_groups_tracked now (seqZ 0 num_groups) [] 1 w tracked_start) as Htr.
  by destruct (generate_groups now (seqZ 0 num_groups) [] 1 w) as [[records c] w1].
Qed.

Lemma generate_dataset_perm (now num_groups : Z) (w : W) :
  fst (generate_dataset now num_groups w) ≡ₚ
  fst (unshuffled_dataset now num_groups w).
Proof.
  unfold generate_dataset, bind.
  destruct (unshuffled_dataset now num_groups w) as [records w1].
  apply RandomFacts.shuffle_perm.
Qed.

End Dataset.

Section DatasetClaims.
Context {W : Type} `{PyRandom W}.

(** C2.  The records of a group are its base records, numbered by the
    counter, followed by the duplicates.  When a group gets duplicates they
    are the [n] copies (1 to 5) of one base record of the group; the k-th
    copy carries every field of the base record (group identifier
    included) except the identifier, which is the base identifier followed
    by [_dup_k]; so the copies have pairwise different identifiers. *)
Theorem duplicates_agree_with_base (now group_num c : Z) (w : W) :
  ∃ bases duplicates : list record,
    (fst (generate_group now group_num c w)).1 = bases ++ duplicates ∧
    record_id <$> bases = IntId <$> seqZ c (Z.of_nat (length bases)) ∧
    (duplicates = [] ∨
     ∃ (base : record) (n : Z),
       base ∈ bases ∧ 1 ≤ n ≤ 5 ∧
       duplicates = create_duplicate_records base n ∧
       length duplicates = Z.to_nat n ∧
       NoDup (record_id <$> duplicates) ∧
       ∀ k : Z, 1 ≤ k ≤ n →
         ∃ d : record,
           duplicates !! Z.to_nat (k - 1) = Some d ∧
           same_data d base ∧
           record_id d =
             StrId (format_ident (record_id base) +:+ "_dup_" +:+ Py.str k)).
Proof.
  destruct (generate_group_spec now group_num c w)
    as (bases & duplicates & m & -> & Hm & Hlen & Hids & _ & Hdups).
  exists bases, duplicates. cbn [fst]. split_and!; [done|by rewrite Hlen|].
  destruct Hdups as [->|(base & n & Hin & Hn & ->)]; [by left|right].
  exists base, n. split_and!; try done; try lia.
  - apply create_duplicate_records_length.
  - apply create_duplicate_records_NoDup.
  - intros k Hk. by apply create_duplicate_records_lookup.
Qed.

(** C10.  In the dataset, before and after the shuffle, no identifier
    occurs twice, neither as a value nor as written in the file.  Every
    identifier is the counter value of a base record or
    [<base>_dup_<k>]; in generation order the integer identifiers
    increase strictly, and the counter ends one past the number of records,
    duplicates included.  [generate_large_dataset] is the case of
    [NUM_GROUPS] groups. *)
Theorem record_ids_are_distinct (now num_groups : Z) (w : W) :
  let records := fst (generate_dataset now num_groups w) in
  let unshuffled := fst (unshuffled_dataset now num_groups w) in
  let counter := (fst (generate_groups now (seqZ 0 num_groups) [] 1 w)).2 in
  NoDup (written_id <$> records) ∧
  NoDup (record_id <$> records) ∧
  records ≡ₚ unshuffled ∧
  Forall (λ r, ∃ o : origin, record_id r = ident_of o ∧ 1 ≤ base_of o < counter)
         records ∧
  StronglySorted Z.lt (base_ids unshuffled) ∧
  counter = 1 + Z.of_nat (length unshuffled).
Proof.
  intros records unshuffled counter.
  pose proof (generate_dataset_perm now num_groups w) as Hperm.
  pose proof (unshuffled_dataset_tracked now num_groups w) as Htr.
  fold records unshuffled in Hperm. fold unshuffled counter in Htr.
  destruct Htr as (os & Hids & Hnd & Hlt & Hsorted & Hc).
  assert (NoDup (written_id <$> records)) as Hwritten.
  { rewrite Hperm. unfold written_id.
    rewrite (list_fmap_compose record_id format_ident), Hids.
    rewrite <- list_fmap_compose. by apply NoDup_fmap_2; [apply _|]. }
  split_and!; try done.
  - unfold written_id in Hwritten.
    rewrite (list_fmap_compose record_id format_ident) in Hwritten.
    by apply NoDup_fmap_1 in Hwritten.
  - rewrite Hperm. apply Forall_forall. intros r Hr.
    apply (list_elem_of_fmap_2 record_id) in Hr. rewrite Hids in Hr.
    apply list_elem_of_fmap in Hr as (o & -> & Ho).
    rewrite Forall_forall in Hlt. exists o. split; [done|by apply Hlt].
Qed.

(** The date written into a record is the clock date minus the drawn
    number of days: for one generator state, two clock readings give
    records that differ exactly there. *)
Lemma generate_record_reads_clock (now1 now2 : Z) (gid : string) (c : Z) (w : W) :
  ∃ days_ago : Z,
    0 ≤ days_ago ≤ 730 ∧
    created_date (fst (generate_record now1 gid c w)) =
      Py.strftime_Ymd (now1 - days_ago) ∧
    created_date (fst (generate_record now2 gid c w)) =
      Py.strftime_Ymd (now2 - days_ago) ∧
    snd (generate_record now1 gid c w) = snd (generate_record now2 gid c w).
Proof.
  unfold generate_record. run.
  match goal with
  | E : Random.randint 0 730 ?w0 = (?d, _) |- _ =>
      exists d; pose proof (RandomFacts.randint_range 0 730 w0 ltac:(lia)) as Hr;
      rewrite E in Hr
  end.
  done.
Qed.

(** How [generate_record] makes a value null: all values are sampled
    first; then one further draw per nullable field decides whether the
    value already sampled is replaced by [None], which the writer renders
    as the empty string. *)
Definition samples_then_nulls (now : Z) (gid : string) (c : Z) (w : W) : Prop :=
  ∃ (w1 w2 w3 w4 w5 w6 w7 w8 w9 w10 w11 : W)
    (name0 department0 : string) (age0 salary0 days_ago : Z) (active0 : bool)
    (x u_age u_salary u_rating u_department : Q),
    Random.choice NAMES w = (name0, w1) ∧
    Random.randint 22 65 w1 = (age0, w2) ∧
    Random.randint 30000 150000 w2 = (salary0, w3) ∧
    Random.choice [true; false] w3 = (active0, w4) ∧
    Random.choice DEPARTMENTS w4 = (department0, w5) ∧
    Random.uniform 1.0 5.0 w5 = (x, w6) ∧
    Random.randint 0 730 w6 = (days_ago, w7) ∧
    random_random w7 = (u_age, w8) ∧
    random_random w8 = (u_salary, w9) ∧
    random_random w9 = (u_rating, w10) ∧
    random_random w10 = (u_department, w11) ∧
    generate_record now gid c w =
      (Record_ gid name0
         (if Py.Qltb u_age 0.1 then None else Some age0)
         (if Py.Qltb u_salary 0.05 then None else Some salary0)
         active0
         (Py.strftime_Ymd (now - days_ago))
         (if Py.Qltb u_department 0.03 then None else Some department0)
         (if Py.Qltb u_rating 0.08 then None else Some (Py.round1 x))
         (IntId c),
       w11) ∧
    cells (fst (generate_record now gid c w)) =
      [gid; name0;
       if Py.Qltb u_age 0.1 then "" else Py.str age0;
       if Py.Qltb u_salary 0.05 then "" else Py.str salary0;
       if active0 then "True" else "False";
       Py.strftime_Ymd (now - days_ago);
       if Py.Qltb u_department 0.03 then "" else department0;
       if Py.Qltb u_rating 0.08 then "" else Py.str_float (Py.round1 x);
       Py.str c].

Lemma generate_record_nulls (now : Z) (gid : string) (c : Z) (w : W) :
  samples_then_nulls now gid c w.
Proof.
  unfold samples_then_nulls, generate_record. run.
  do 22 eexists. split_and!; try eassumption; try reflexivity.
  unfold cells. cbn.
  by repeat match goal with |- context [Py.Qltb ?u ?p] => destruct (Py.Qltb u p) end.
Qed.

End DatasetClaims.

(** *** Concrete runs on scripted draws *)

Definition script_group : Scripted.world :=
  Scripted.World
    [1; 3; 5; 70; 1; 2; 500; 30; 50; 200; 300; 400; 4; 6; 71; 0; 3; 250; 31;
     500; 500; 500; 500; 100; 1; 2]%N [].

(** A group of two base records, the second one copied three times. *)
Example generate_group_example :
  let result := fst (generate_group (Py.date 2024 1 1) 0 1 script_group) in
  written_id <$> result.1 = ["1"; "2"; "2_dup_1"; "2_dup_2"; "2_dup_3"] ∧
  name <$> result.1 = ["Alice"; "Charlie"; "Charlie"; "Charlie"; "Charlie"] ∧
  result.2 = 6.
Proof. by vm_compute. Qed.

Lemma duplicates_agree_with_base_witness :
  ∃ bases duplicates : list record,
    (fst (generate_group (Py.date 2024 1 1) 0 1 script_group)).1 =
      bases ++ duplicates ∧
    record_id <$> bases = IntId <$> seqZ 1 (Z.of_nat (length bases)) ∧
    (duplicates = [] ∨
     ∃ (base : record) (n : Z),
       base ∈ bases ∧ 1 ≤ n ≤ 5 ∧
       duplicates = create_duplicate_records base n ∧
       length duplicates = Z.to_nat n ∧
       NoDup (record_id <$> duplicates) ∧
       ∀ k : Z, 1 ≤ k ≤ n →
         ∃ d : record,
           duplicates !! Z.to_nat (k - 1) = Some d ∧
           same_data d base ∧
           record_id d =
             StrId (format_ident (record_id base) +:+ "_dup_" +:+ Py.str k)).
Proof.
  apply (duplicates_agree_with_base (Py.date 2024 1 1) 0 1 script_group).
Defined.

Definition script_run : Scripted.world :=
  Scripted.World
    [2; 5; 3; 999; 7; 1; 2; 500; 4; 9; 11; 13; 17; 19; 23; 29; 31; 37; 41;
     43; 47; 53; 59; 61; 67; 71; 73; 79; 83; 89; 97; 101; 103; 107; 109;
     113]%N [].

(** C1 (the code misses it).  Two complete runs from the same generator
    state that read the clock on 2024-01-01 and on 2024-01-02 write
    different files: the first record carries 2023-11-21 in the one and
    2023-11-22 in the other. *)
Theorem output_depends_on_clock :
  let day1 := Py.date 2024 1 1 in
  let day2 := Py.date 2024 1 2 in
  cells <$> head (fst (generate_large_dataset day1 script_run)) =
    Some ["GROUP_000"; "Paul"; ""; ""; "False"; "2023-11-21"; "IT"; ""; "2"] ∧
  cells <$> head (fst (generate_large_dataset day2 script_run)) =
    Some ["GROUP_000"; "Paul"; ""; ""; "False"; "2023-11-22"; "IT"; ""; "2"] ∧
  main day1 script_run ≠ main day2 script_run.
Proof.
  cbv zeta. split_and!; [by vm_compute..|].
  apply (bool_decide_unpack _). by vm_compute.
Qed.

End LargeDatasetProps.

(** ** Null injection in both scripts *)

Module NullInjection.
Import LargeTestData LargeTestDataProps.

(** C4 (as the code has it).  Each of the six
    [generate_*_with_null_probability] functions draws a uniform number
    first; when the draw is below the null probability it returns
    [random.choice] of the five sentinels, taken from the state the draw
    left, so its value generator is not run; otherwise it returns what the
    value generator returns from that state.  [generate_username] draws
    first as well but returns a sentinel when the draw is not below 0.8.
    [generate_record] samples every value first and then, by one further
    draw per nullable field, replaces the sampled value by [None]. *)
Theorem null_injection {W : Type} `{PyRandom W} :
  (∀ p, injects_nulls p boolean_value (generate_boolean_with_null_probability p)) ∧
  (∀ lo hi p,
     injects_nulls p (float_value lo hi)
       (generate_float_with_null_probability lo hi p)) ∧
  (∀ lo hi p,
     injects_nulls p (integer_value lo hi)
       (generate_integer_with_null_probability lo hi p)) ∧
  (∀ s e p,
     injects_nulls p (date_value s e) (generate_date_with_null_probability s e p)) ∧
  (∀ p, injects_nulls p time_value (generate_time_with_null_probability p)) ∧
  (∀ s e p,
     injects_nulls p (datetime_value s e)
       (generate_datetime_with_null_probability s e p)) ∧
  (∀ w : W,
     let (u, w1) := random_random w in
     ((u < 0.8)%Q → generate_username w = username_value w1) ∧
     ((0.8 <= u)%Q →
        generate_username w = Random.choice null_types w1 ∧
        fst (generate_username w) ∈ null_types)) ∧
  (∀ (now : Z) (gid : string) (c : Z) (w : W),
     LargeDatasetProps.samples_then_nulls now gid c w).
Proof.
  split_and!.
  - intros p. rewrite boolean_is_injector. apply null_injector_injects.
  - intros lo hi p. rewrite float_is_injector. apply null_injector_injects.
  - intros lo hi p. rewrite integer_is_injector. apply null_injector_injects.
  - intros s e p. rewrite date_is_injector. apply null_injector_injects.
  - intros p. rewrite time_is_injector. apply null_injector_injects.
  - intros s e p. rewrite datetime_is_injector. apply null_injector_injects.
  - apply username_cases.
  - apply LargeDatasetProps.generate_record_nulls.
Qed.

(** Two runs the claim as stated excludes.  A draw of 0.1, below the 20%
    null probability of the username, yields a username and no sentinel.
    And [generate_record] on the draws 3, 5, 70, 1, 2, 0.5, 30 and then
    0.05: the age 27 has been sampled before the null draw replaces it by
    [None]. *)
Lemma null_injection_counterexample :
  let w := Scripted.World [100]%N [] in
  let w' := Scripted.World [3; 5; 70; 1; 2; 500; 30; 50; 200; 300; 400]%N [] in
  let r := fst (LargeDataset.generate_record (Py.date 2024 1 1) "GROUP_000" 1 w') in
  (fst (random_random w) == 0.1)%Q ∧ (0.1 < 0.2)%Q ∧
  fst (generate_username w) = "john_doe" ∧
  ("john_doe" ∉ null_types) ∧
  fst (Random.randint 22 65 (snd (Random.choice LargeDataset.NAMES w'))) = 27 ∧
  LargeDataset.age r = None ∧
  LargeDataset.cells r =
    ["GROUP_000"; "Alice"; ""; "30070"; "False"; "2023-12-02"; "Sales";
     "3.0"; "1"].
Proof.
  cbv zeta. split_and!; try by vm_compute.
  apply (bool_decide_unpack _). by vm_compute.
Qed.

End NullInjection.

(** * Further properties of the two scripts *)

(** ** Lines of the [csv] writer *)

Module CsvFacts.

(** [line.split(',')]. *)
Fixpoint split_commas (s : string) : list string :=
  match s with
  | EmptyString => [""]
  | String c s' =>
      if Ascii.eqb c ","%char then "" :: split_commas s'
      else match split_commas s' with
           | h :: t => String c h :: t
           | [] => [String c ""]
           end
  end.

(** A field the writer leaves as it is. *)
Definition unquoted (s : string) : Prop := Csv.needs_quotes s = false.

Lemma append_assoc (a b c : string) : (a +:+ b) +:+ c = a +:+ b +:+ c.
Proof.
  induction a as [|x a IH]; [done|]. by rewrite !PyFacts.append_cons, IH.
Qed.

Lemma unquoted_nil : unquoted "".
Proof. reflexivity. Qed.

Lemma needs_quotes_app (s t : string) :
  Csv.needs_quotes (s +:+ t) = Csv.needs_quotes s || Csv.needs_quotes t.
Proof.
  induction s as [|c s IH]; [done|].
  rewrite PyFacts.append_cons. cbn [Csv.needs_quotes]. by rewrite IH, orb_assoc.
Qed.

Lemma unquoted_app (s t : string) : unquoted s → unquoted t → unquoted (s +:+ t).
Proof. unfold unquoted. rewrite needs_quotes_app. by intros -> ->. Qed.

Lemma plain_char_not_special (c : ascii) :
  PyFacts.plain_char c = true → Csv.special c = false.
Proof. by destruct c as [[] [] [] [] [] [] [] []]. Qed.

Lemma plain_unquoted (s : string) : PyFacts.plain s = true → unquoted s.
Proof.
  induction s as [|c s IH]; [done|]. cbn [PyFacts.plain].
  intros [Hc Hs]%andb_true_iff. unfold unquoted. cbn [Csv.needs_quotes].
  by rewrite (plain_char_not_special c Hc), (IH Hs).
Qed.

Lemma field_unquoted (s : string) : unquoted s → Csv.field s = s.
Proof. unfold unquoted, Csv.field. by intros ->. Qed.

Lemma fields_unquoted (row : list string) :
  Forall unquoted row → Csv.field <$> row = row.
Proof.
  induction 1 as [|s row Hs _ IH]; [done|].
  cbn [fmap list_fmap]. cbn [fmap] in IH. by rewrite (field_unquoted s Hs), IH.
Qed.

Lemma split_commas_nonempty (s : string) : split_commas s ≠ [].
Proof.
  induction s as [|c s IH]; [done|]. cbn [split_commas].
  destruct (Ascii.eqb c ","); [done|]. by destruct (split_commas s).
Qed.

Lemma split_commas_single (f : string) : unquoted f → split_commas f = [f].
Proof.
  unfold unquoted. induction f as [|c f IH]; [done|].
  cbn [Csv.needs_quotes split_commas]. intros [Hc Hf]%orb_false_iff.
  unfold Csv.special in Hc. apply orb_false_iff in Hc as [Hc _].
  apply orb_false_iff in Hc as [Hc _]. apply orb_false_iff in Hc as [Hc _].
  by rewrite Hc, (IH Hf).
Qed.

Lemma split_commas_cons (f rest : string) :
  unquoted f → split_commas (f +:+ "," +:+ rest) = f :: split_commas rest.
Proof.
  unfold unquoted. induction f as [|c f IH].
  - intros _. by rewrite PyFacts.append_nil, PyFacts.append_cons, PyFacts.append_nil.
  - cbn [Csv.needs_quotes]. intros [Hc Hf]%orb_false_iff.
    unfold Csv.special in Hc. apply orb_false_iff in Hc as [Hc _].
    apply orb_false_iff in Hc as [Hc _]. apply orb_false_iff in Hc as [Hc _].
    rewrite PyFacts.append_cons. cbn [split_commas]. by rewrite Hc, (IH Hf).
Qed.

(** Joining fields that need no quotes and splitting at the commas gives
    the fields back. *)
Lemma split_join (row : list string) :
  row ≠ [] → Forall unquoted row → split_commas (Csv.join "," row) = row.
Proof.
  intros Hne Hrow. induction Hrow as [|f row Hf Hrow IH]; [done|].
  destruct row as [|g row].
  - cbn [Csv.join]. by apply split_commas_single.
  - change (Csv.join "," (f :: g :: row))
      with (f +:+ "," +:+ Csv.join "," (g :: row)).
    rewrite split_commas_cons by done. f_equal. by apply IH.
Qed.

Lemma writerow_unquoted (row : list string) :
  (2 ≤ length row)%nat → Forall unquoted row →
  Csv.writerow row = Csv.join "," row +:+ Csv.lineterminator.
Proof.
  intros Hlen Hrow. unfold Csv.writerow. rewrite (fields_unquoted row Hrow).
  destruct row as [|[|c f] [|g row]]; cbn in Hlen; try lia; done.
Qed.

(** *** What the formatting functions produce needs no quotes *)

Lemma str_unquoted (n : Z) : unquoted (Py.str n).
Proof. apply plain_unquoted, PyFacts.str_plain. Qed.

Lemma zeros_plain (k : nat) : PyFacts.plain (Py.zeros k) = true.
Proof.
  induction k as [|k IH]; [done|]. cbn [Py.zeros].
  by rewrite PyFacts.append_cons, PyFacts.append_nil.
Qed.

Lemma zfill_plain (w : nat) (s : string) :
  PyFacts.plain s = true → PyFacts.plain (Py.zfill w s) = true.
Proof. intros Hs. unfold Py.zfill. by rewrite PyFacts.plain_app, zeros_plain, Hs. Qed.

Lemma format_0d_plain (w : nat) (n : Z) : PyFacts.plain (Py.format_0d w n) = true.
Proof.
  unfold Py.format_0d. destruct (n <? 0).
  - rewrite PyFacts.append_cons, PyFacts.append_nil. cbn [PyFacts.plain].
    by rewrite zfill_plain by apply PyFacts.pretty_Z_plain.
  - apply zfill_plain, PyFacts.pretty_Z_plain.
Qed.

Lemma strftime_plain (d : Z) : PyFacts.plain (Py.strftime_Ymd d) = true.
Proof.
  unfold Py.strftime_Ymd. destruct (Py.ord2ymd d) as [[y m] dd].
  rewrite !PyFacts.plain_app, !format_0d_plain. done.
Qed.

Lemma fixed_unquoted (digits : nat) (neg : bool) (m : Z) :
  unquoted (Py.fixed digits neg m).
Proof.
  unfold Py.fixed.
  apply unquoted_app; [by destruct neg|].
  apply unquoted_app; [apply plain_unquoted, PyFacts.pretty_Z_plain|].
  apply unquoted_app; [done|].
  apply plain_unquoted, zfill_plain, PyFacts.pretty_Z_plain.
Qed.

Lemma format_f_unquoted (digits : nat) (x : Q) : unquoted (Py.format_f digits x).
Proof. apply fixed_unquoted. Qed.

End CsvFacts.

(** ** More on [generate_large_test_data.py] *)

Module LargeTestDataMore.
Import LargeTestData LargeTestDataProps CsvFacts.

(** *** Values against sentinels *)

Definition is_digit (c : ascii) : bool :=
  let n := nat_of_ascii c in (48 <=? n)%nat && (n <=? 57)%nat.

Fixpoint has_digit (s : string) : bool :=
  match s with
  | EmptyString => false
  | String c s' => is_digit c || has_digit s'
  end.

Lemma has_digit_app (s t : string) :
  has_digit (s +:+ t) = has_digit s || has_digit t.
Proof.
  induction s as [|c s IH]; [done|].
  rewrite PyFacts.append_cons. cbn [has_digit]. by rewrite IH, orb_assoc.
Qed.

Lemma has_digit_not_null (v : string) : has_digit v = true → v ∉ null_types.
Proof.
  intros Hv Hin. unfold null_types in Hin.
  repeat (apply elem_of_cons in Hin as [->|Hin]; [done|]).
  by apply elem_of_nil in Hin.
Qed.

Lemma pretty_N_go_has_digit (x : N) (s : string) :
  has_digit s = true → has_digit (pretty_N_go x s) = true.
Proof.
  revert s. induction (N.lt_wf_0 x) as [x _ IH]; intros s Hs.
  assert (x = 0 ∨ 0 < x)%N as [->|?] by lia.
  - by rewrite pretty_N_go_0.
  - rewrite pretty_N_go_step by done. apply IH; [by apply N.div_lt|].
    cbn [has_digit]. by rewrite Hs, orb_true_r.
Qed.

Lemma pretty_N_has_digit (x : N) : has_digit (pretty x) = true.
Proof.
  unfold pretty, pretty_N. case_decide; [done|].
  rewrite pretty_N_go_step by lia. apply pretty_N_go_has_digit.
  cbn [has_digit]. rewrite orb_false_r.
  unfold pretty_N_char. by repeat case_match.
Qed.

Lemma pretty_Z_has_digit (x : Z) : has_digit (pretty x) = true.
Proof.
  destruct x as [|p|p]; unfold pretty, pretty_Z; [done| |].
  - apply pretty_N_has_digit.
  - rewrite has_digit_app. change (pretty p) with (pretty (N.pos p)).
    by rewrite pretty_N_has_digit, orb_true_r.
Qed.

Lemma format_0d_has_digit (w : nat) (n : Z) : has_digit (Py.format_0d w n) = true.
Proof.
  unfold Py.format_0d, Py.zfill.
  destruct (n <? 0); rewrite !has_digit_app, pretty_Z_has_digit;
    by rewrite ?orb_true_r.
Qed.

Lemma strftime_has_digit (d : Z) : has_digit (Py.strftime_Ymd d) = true.
Proof.
  unfold Py.strftime_Ymd. destruct (Py.ord2ymd d) as [[y m] dd].
  by rewrite has_digit_app, format_0d_has_digit.
Qed.

Lemma fixed_has_digit (digits : nat) (neg : bool) (m : Z) :
  has_digit (Py.fixed digits neg m) = true.
Proof.
  unfold Py.fixed. rewrite !has_digit_app, pretty_Z_has_digit.
  by rewrite orb_true_r.
Qed.

Section Values.
Context {W : Type} `{PyRandom W}.

Lemma boolean_value_not_null (w : W) : fst (boolean_value w) ∉ null_types.
Proof.
  pose proof (boolean_value_domain w) as Hb. unfold one_of in Hb.
  destruct (boolean_value w) as [v w']. cbn [fst] in *.
  repeat (apply elem_of_cons in Hb as [->|Hb];
          [apply (bool_decide_unpack _); by vm_compute|]).
  by apply elem_of_nil in Hb.
Qed.

Lemma float_value_not_null (lo hi : Q) (w : W) :
  fst (float_value lo hi w) ∉ null_types.
Proof.
  unfold float_value. run. apply has_digit_not_null, fixed_has_digit.
Qed.

Lemma integer_value_not_null (lo hi : Z) (w : W) :
  fst (integer_value lo hi w) ∉ null_types.
Proof.
  unfold integer_value. run. apply has_digit_not_null, pretty_Z_has_digit.
Qed.

Lemma date_value_not_null (s e : Z) (w : W) :
  fst (date_value s e w) ∉ null_types.
Proof.
  unfold date_value. run. apply has_digit_not_null, strftime_has_digit.
Qed.

Lemma time_value_not_null (w : W) : fst (time_value w) ∉ null_types.
Proof.
  unfold time_value. run. apply has_digit_not_null. unfold clock.
  by rewrite has_digit_app, format_0d_has_digit.
Qed.

Lemma datetime_value_not_null (s e : Z) (w : W) :
  fst (datetime_value s e w) ∉ null_types.
Proof.
  unfold datetime_value. run. apply has_digit_not_null.
  by rewrite has_digit_app, strftime_has_digit.
Qed.

Lemma username_value_not_null (w : W) : fst (username_value w) ∉ null_types.
Proof.
  destruct (username_value_domain w) as (first & last & Hf & Hl & ->).
  unfold first_names in Hf. unfold last_names in Hl.
  repeat (apply elem_of_cons in Hf as [->|Hf]; [|]);
    [..|by apply elem_of_nil in Hf];
    (repeat (apply elem_of_cons in Hl as [->|Hl];
             [apply (bool_decide_unpack _); by vm_compute|]);
     by apply elem_of_nil in Hl).
Qed.

Lemma null_injector_null_iff (p : Q) (wrapped : State W string) (w : W) :
  (∀ w', fst (wrapped w') ∉ null_types) →
  fst (null_injector p wrapped w) ∈ null_types ↔ (fst (random_random w) < p)%Q.
Proof.
  intros Hwrapped. unfold null_injector, bind.
  destruct (random_random w) as [u w1]. cbn [fst].
  destruct (Py.Qltb u p) eqn:Hu.
  - apply Qltb_true in Hu. split; [done|]. intros _. apply null_types_choice.
  - apply Qltb_false in Hu. split.
    + intros Hin. by apply Hwrapped in Hin.
    + intros Hlt. by apply Qlt_not_le in Hlt.
Qed.

(** X1.  Each of the six null-injecting generators returns a sentinel
    exactly when its first draw is below the null probability: what the
    value generators produce is never one of the five sentinel strings.
    [generate_username] returns a sentinel exactly when its draw is not
    below 0.8. *)
Theorem sentinel_exactly_when_drawn :
  (∀ p (w : W),
     fst (generate_boolean_with_null_probability p w) ∈ null_types ↔
     (fst (random_random w) < p)%Q) ∧
  (∀ lo hi p (w : W),
     fst (generate_float_with_null_probability lo hi p w) ∈ null_types ↔
     (fst (random_random w) < p)%Q) ∧
  (∀ lo hi p (w : W),
     fst (generate_integer_with_null_probability lo hi p w) ∈ null_types ↔
     (fst (random_random w) < p)%Q) ∧
  (∀ s e p (w : W),
     fst (generate_date_with_null_probability s e p w) ∈ null_types ↔
     (fst (random_random w) < p)%Q) ∧
  (∀ p (w : W),
     fst (generate_time_with_null_probability p w) ∈ null_types ↔
     (fst (random_random w) < p)%Q) ∧
  (∀ s e p (w : W),
     fst (generate_datetime_with_null_probability s e p w) ∈ null_types ↔
     (fst (random_random w) < p)%Q) ∧
  (∀ w : W,
     fst (generate_username w) ∈ null_types ↔
     (0.8 <= fst (random_random w))%Q).
Proof.
  split_and!.
  - intros p w. apply (null_injector_null_iff p boolean_value), boolean_value_not_null.
  - intros lo hi p w.
    apply (null_injector_null_iff p (float_value lo hi)), float_value_not_null.
  - intros lo hi p w.
    apply (null_injector_null_iff p (integer_value lo hi)), integer_value_not_null.
  - intros s e p w.
    apply (null_injector_null_iff p (date_value s e)), date_value_not_null.
  - intros p w. apply (null_injector_null_iff p time_value), time_value_not_null.
  - intros s e p w.
    apply (null_injector_null_iff p (datetime_value s e)), datetime_value_not_null.
  - intros w. unfold generate_username, bind.
    pose proof (username_value_not_null) as Hname.
    destruct (random_random w) as [u w1]. cbn [fst].
    destruct (Py.Qltb u 0.8) eqn:Hu.
    + apply Qltb_true in Hu. split; [by intros ?%Hname|].
      intros Hle. by apply Qlt_not_le in Hu.
    + apply Qltb_false in Hu. split; [done|]. intros _. apply null_types_choice.
Qed.

End Values.

(** *** Rows and their lines *)

Lemma null_unquoted (v : string) : v ∈ null_types → unquoted v.
Proof.
  unfold null_types. intros Hin.
  repeat (apply elem_of_cons in Hin as [->|Hin]; [done|]).
  by apply elem_of_nil in Hin.
Qed.

Lemma one_of_unquoted (l : list string) (v : string) :
  Forall unquoted l → one_of l v → unquoted v.
Proof. intros Hl Hv. rewrite Forall_forall in Hl. by apply Hl. Qed.

Lemma colon_fields_unquoted (a b c : Z) : unquoted (clock a b c).
Proof.
  unfold clock.
  repeat (apply unquoted_app; [first [done | apply plain_unquoted, format_0d_plain]|]).
  apply plain_unquoted, format_0d_plain.
Qed.

Lemma os_versions_unquoted :
  map_Forall (λ _ versions, Forall unquoted versions) OS_VERSIONS.
Proof.
  unfold OS_VERSIONS. cbn [list_to_map foldr].
  repeat (apply map_Forall_insert_2; [by repeat constructor|]).
  apply map_Forall_empty.
Qed.

Ltac unquoted_domain Hdom :=
  first
    [ destruct Hdom as (n & ->); apply str_unquoted
    | destruct Hdom as (n & _ & ->); apply str_unquoted
    | destruct Hdom as (x & _ & _ & ->); apply format_f_unquoted
    | destruct Hdom as (d & _ & ->); apply plain_unquoted, strftime_plain
    | destruct Hdom as (a & b & c & _ & _ & _ & ->); apply colon_fields_unquoted
    | eapply one_of_unquoted; [|exact Hdom]; by repeat constructor
    | destruct Hdom as (d & h & m & s & ms & _ & _ & _ & _ & _ & ->);
      repeat (apply unquoted_app;
              [first [done | apply plain_unquoted, strftime_plain
                     | apply plain_unquoted, format_0d_plain]|]);
      done
    | destruct Hdom as (first & last & Hf & Hl & ->);
      apply unquoted_app; [|apply unquoted_app; [done|]];
      [ eapply (one_of_unquoted first_names); [|exact Hf]; by repeat constructor
      | eapply (one_of_unquoted last_names); [|exact Hl]; by repeat constructor ]
    | destruct Hdom as (device & versions & Hv & Hin);
      pose proof (os_versions_unquoted device versions Hv) as Hall;
      rewrite Forall_forall in Hall; by apply Hall
    | destruct Hdom as (a & b & c & _ & _ & _ & ->);
      repeat (apply unquoted_app; [first [done | apply str_unquoted]|]);
      apply str_unquoted
    | destruct Hdom as (city & x & _ & _ & _ & ->); apply format_f_unquoted ].

Lemma domains_unquoted :
  Forall (λ spec, ∀ v, in_domain spec v → unquoted v) field_specs.
Proof.
  unfold field_specs.
  repeat (apply Forall_cons; split;
          [intros v [Hnull|Hdom];
           [by apply null_unquoted | cbn [snd] in Hdom; unquoted_domain Hdom]|]).
  apply Forall_nil_2.
Qed.

Lemma Forall2_Forall_unquoted (specs : list (string * (string → Prop)))
    (row : list string) :
  Forall (λ spec, ∀ v, in_domain spec v → unquoted v) specs →
  Forall2 in_domain specs row → Forall unquoted row.
Proof.
  intros Hspecs Hrow. induction Hrow as [|spec v specs row Hv _ IH]; [done|].
  apply Forall_cons in Hspecs as [Hspec Hspecs].
  constructor; [by apply Hspec | by apply IH].
Qed.

Section Rows.
Context {W : Type} `{PyRandom W} `{NumpyRandom W}.

Lemma row_in_domain (user_id : Z) (w : W) :
  Forall2 in_domain field_specs (fst (generate_row user_id w)).
Proof.
  unfold generate_row. run.
  unfold field_specs, in_domain, Y2023.
  repeat (apply Forall2_cons; split); [..|apply Forall2_nil_2]; cbn [fst snd].
  all: try (right; eexists; split; [|reflexivity]; lia).
  all: try (right; by eexists).
  all: try (by eapply boolean_field).
  all: try (by eapply date_field).
  all: try (by eapply time_field).
  all: try (by eapply datetime_field).
  all: try (by eapply float_field).
  all: try (by eapply integer_field).
  all: try (right; by eapply choice_field).
  all: try (by eapply username_field).
  all: try (right; by eapply app_version_field).
  all: try (right; by eapply session_duration_field).
  all: try (right; by eapply page_views_field).
  - right. eexists. by eapply os_version_field.
  - right. by eapply coordinates_field.
  - right. by eapply coordinates_field.
Qed.

Definition plain_row (row : list string) : Prop :=
  length row = length headers ∧ Forall unquoted row.

Lemma generate_row_plain (user_id : Z) (w : W) :
  plain_row (fst (generate_row user_id w)).
Proof.
  pose proof (row_in_domain user_id w) as Hdom. split.
  - apply Forall2_length in Hdom. by rewrite <- Hdom.
  - by eapply Forall2_Forall_unquoted; [apply domains_unquoted|].
Qed.

Lemma empty_row_plain : plain_row empty_row.
Proof. split; [done|]. by repeat constructor. Qed.

Lemma garbage_row_plain (w : W) : plain_row (fst (garbage_row w)).
Proof.
  destruct (garbage_row_shape w) as (text & Hin & ->). split; [done|].
  constructor; [|by repeat constructor].
  unfold garbage_lines in Hin.
  repeat (apply elem_of_cons in Hin as [->|Hin]; [done|]).
  by apply elem_of_nil in Hin.
Qed.

Lemma write_rows_plain (E G : Z) (indices : list Z) (w : W) :
  Forall plain_row (fst (write_rows E G indices w)).
Proof.
  revert w. induction indices as [|i rest IH]; intros w; [constructor|].
  cbn [write_rows]. unfold bind, ret.
  destruct (write_iteration_rows E G i w) as (w1 & w2 & Hrows & _).
  destruct (write_iteration E G i w) as [written w3].
  specialize (IH w3). destruct (write_rows E G rest w3) as [more w4].
  cbn [fst] in *. subst written. rewrite !Forall_app. split_and!; try done.
  - constructor; [apply generate_row_plain | constructor].
  - destruct (i mod E =? 0); repeat constructor; apply empty_row_plain.
  - destruct (i mod G =? 0); repeat constructor; apply garbage_row_plain.
Qed.

(** X2.  Every row [main] hands to the writer, data row, empty row or
    garbage row, has as many fields as the header, and no field contains
    a comma, a quote or a line break.  So the writer quotes nothing: the
    line is the fields joined by commas followed by CRLF, and splitting it
    at the commas gives the 33 fields back. *)
Theorem written_lines_split_into_fields (N E G : Z) (w : W) :
  Forall (λ row,
            length row = length headers ∧
            Csv.writerow row = Csv.join "," row +:+ Csv.lineterminator ∧
            split_commas (Csv.join "," row) = row)
         (fst (main_rows N E G w)).
Proof.
  eapply Forall_impl; [apply write_rows_plain|].
  intros row [Hlen Hrow]. split_and!; [done| |].
  - apply writerow_unquoted; [|done]. rewrite Hlen. cbn. lia.
  - apply split_join; [|done]. intros ->. done.
Qed.

(** X3.  For [N] data rows the writer receives N + N/E + N/G rows in
    all; [main], with 100000 rows and the intervals 5000 and 10000, writes
    100030 rows after the 14 lines of the file head. *)
Theorem total_rows_written (N E G : Z) (w : W) :
  0 ≤ N → 0 < E → 0 < G →
  Z.of_nat (length (fst (main_rows N E G w))) = N + N / E + N / G.
Proof.
  intros HN HE HG.
  rewrite <- (length_fmap classify), main_rows_layout.
  by apply layout_length.
Qed.

Lemma concat_strings_app (l1 l2 : list string) :
  Py.concat_strings (l1 ++ l2) = Py.concat_strings l1 +:+ Py.concat_strings l2.
Proof.
  induction l1 as [|s l1 IH]; [done|].
  cbn [app Py.concat_strings]. by rewrite IH, append_assoc.
Qed.

Lemma write_rows_app (E G : Z) (l1 l2 : list Z) (w : W) :
  write_rows E G (l1 ++ l2) w =
  (fst (write_rows E G l1 w) ++
     fst (write_rows E G l2 (snd (write_rows E G l1 w))),
   snd (write_rows E G l2 (snd (write_rows E G l1 w)))).
Proof.
  revert w. induction l1 as [|i l1 IH]; intros w.
  - cbn [app write_rows]. unfold ret. cbn [fst snd app].
    by destruct (write_rows E G l2 w).
  - cbn [app write_rows]. unfold bind, ret.
    destruct (write_iteration E G i w) as [written w1].
    rewrite IH. destruct (write_rows E G l1 w1) as [rows1 w2].
    cbn [fst snd]. by rewrite app_assoc.
Qed.

(** X9.  A longer run starts like a shorter one: from the same generator
    state, the rows written for [N + M] data rows are the rows written
    for [N] followed by those the loop writes for the indices N+1 .. N+M
    from the state the shorter run ended in, and the file for [N] data
    rows is the beginning of the file for [N + M]. *)
Theorem longer_run_extends_shorter (N M E G : Z) (w : W) :
  0 ≤ N → 0 ≤ M →
  let more := fst (write_rows E G (seqZ (1 + N) M) (snd (main_rows N E G w))) in
  fst (main_rows (N + M) E G w) = fst (main_rows N E G w) ++ more ∧
  fst (main_file (N + M) E G w) =
    fst (main_file N E G w) +:+ Py.concat_strings (Csv.writerow <$> more).
Proof.
  intros HN HM more.
  assert (fst (main_rows (N + M) E G w) = fst (main_rows N E G w) ++ more)
    as Hrows.
  { unfold main_rows. by rewrite seqZ_app, write_rows_app by done. }
  split; [done|]. unfold main_file, bind, ret.
  destruct (main_rows (N + M) E G w) as [rows' w'].
  destruct (main_rows N E G w) as [rows w1]. cbn [fst snd] in *.
  by rewrite Hrows, fmap_app, concat_strings_app, append_assoc.
Qed.

End Rows.

Lemma total_rows_written_witness :
  Z.of_nat (length (fst (main_rows 100000 5000 10000 (Scripted.World [] [])))) =
  100030.
Proof.
  apply (total_rows_written 100000 5000 10000 (Scripted.World [] [])); lia.
Defined.

Lemma longer_run_extends_shorter_witness :
  let w := Scripted.World [] [] in
  let more :=
    fst (write_rows 5000 10000 (seqZ (1 + 20000) 80000)
           (snd (main_rows 20000 5000 10000 w))) in
  fst (main_rows (20000 + 80000) 5000 10000 w) =
    fst (main_rows 20000 5000 10000 w) ++ more ∧
  fst (main_file (20000 + 80000) 5000 10000 w) =
    fst (main_file 20000 5000 10000 w) +:+
    Py.concat_strings (Csv.writerow <$> more).
Proof.
  apply (longer_run_extends_shorter 20000 80000 5000 10000
           (Scripted.World [] [])); lia.
Defined.

End LargeTestDataMore.

(** ** The report [main] of [generate_large_dataset.py] prints *)

Module LargeDatasetReport.
Import LargeDataset.

(** [len(set(r['group_id'] for r in records))]. *)
Definition unique_groups (records : list record) : nat :=
  size (list_to_set (group_id <$> records) : gset string).

(** [group_counts[group_id] = group_counts.get(group_id, 0) + 1]. *)
Definition count_record (group_counts : gmap string Z) (r : record)
    : gmap string Z :=
  <[group_id r := default 0 (group_counts !! group_id r) + 1]> group_counts.

Definition group_counts (records : list record) : gmap string Z :=
  foldl count_record ∅ records.

(** [len([g for g, count in group_counts.items() if count > 1])]. *)
Definition duplicate_groups (records : list record) : nat :=
  size (filter (λ kv : string * Z, 1 < kv.2) (group_counts records)).

(** [sum(count - 1 for count in group_counts.values() if count > 1)]. *)
Definition total_duplicates (records : list record) : Z :=
  map_fold (λ _ count acc, if 1 <? count then acc + (count - 1) else acc) 0
           (group_counts records).

(** [total_duplicates / len(records)]; [None] stands for the
    [ZeroDivisionError] of an empty dataset. *)
Definition duplicate_ratio (records : list record) : option Q :=
  match records with
  | [] => None
  | _ => Some (inject_Z (total_duplicates records) /
               inject_Z (Z.of_nat (length records)))%Q
  end.

End LargeDatasetReport.

(** ** More on [generate_large_dataset.py] *)

Module LargeDatasetMore.
Import LargeDataset LargeDatasetProps LargeDatasetReport CsvFacts.

(** What [generate_record] can put into a record made at clock date
    [now] for the group [gid]. *)
Definition record_ok (now : Z) (gid : string) (r : record) : Prop :=
  group_id r = gid ∧
  name r ∈ NAMES ∧
  (∀ a, age r = Some a → 22 ≤ a ≤ 65) ∧
  (∀ s, salary r = Some s → 30000 ≤ s ≤ 150000) ∧
  (∃ days_ago,
     0 ≤ days_ago ≤ 730 ∧ created_date r = Py.strftime_Ymd (now - days_ago)) ∧
  (∀ d, department r = Some d → d ∈ DEPARTMENTS) ∧
  (∀ x, rating r = Some x →
     ∃ h, 10 ≤ h ≤ 50 ∧ (x == inject_Z h / 10)%Q ∧
          Py.str_float x = Py.fixed 1 false h).

Lemma scaled_tenths (h : Z) :
  0 ≤ h → Py.scaled 1 (1 * (inject_Z h / 10)) = h.
Proof.
  intros Hh. unfold Py.scaled, Py.round_half_even.
  cbn. change (Z.pos (1 * (1 * 10) * 1)) with 10. change (10 ^ Z.of_nat 1) with 10.
  replace (Z.abs (1 * (h * 1)) * 10) with (h * 10) by lia.
  rewrite Z.div_mul, Z.mod_mul by lia. done.
Qed.

Lemma round1_tenths (x : Q) :
  (1 <= x)%Q → (x <= 5)%Q →
  ∃ h, 10 ≤ h ≤ 50 ∧ (Py.round1 x == inject_Z h / 10)%Q ∧
       Py.str_float (Py.round1 x) = Py.fixed 1 false h.
Proof.
  intros H1 H5.
  assert (0 <= x)%Q as H0 by (by apply (Qle_trans _ 1)).
  assert (10 ≤ Py.scaled 1 x ≤ 50) as Hh.
  { unfold Py.scaled. apply PyFacts.round_half_even_bounds; rewrite Qabs_pos by done.
    - apply (Qle_trans _ (1 * 10)); [done|]. by apply Qmult_le_compat_r.
    - apply (Qle_trans _ (5 * 10)); [|done]. by apply Qmult_le_compat_r. }
  exists (Py.scaled 1 x). split; [done|].
  unfold Py.round1. apply Qle_bool_iff in H0. rewrite H0. split.
  - apply Qmult_1_l.
  - unfold Py.str_float, Py.format_f. rewrite scaled_tenths by lia.
    replace (Qle_bool 0 (1 * (inject_Z (Py.scaled 1 x) / 10))) with true; [done|].
    symmetry. apply Qle_bool_iff. unfold Qle. cbn. lia.
Qed.

(** *** Group identifiers *)

Fixpoint strip_zeros (s : string) : string :=
  match s with
  | EmptyString => EmptyString
  | String c s' => if Ascii.eqb c "0"%char then strip_zeros s' else s
  end.

Lemma strip_zeros_zeros (k : nat) (s : string) :
  strip_zeros (Py.zeros k +:+ s) = strip_zeros s.
Proof.
  induction k as [|k IH]; [done|]. cbn [Py.zeros].
  by rewrite PyFacts.append_cons, PyFacts.append_nil, PyFacts.append_cons.
Qed.

Lemma strip_zeros_pretty_N_go (x : N) (s : string) :
  (0 < x)%N → strip_zeros (pretty_N_go x s) = pretty_N_go x s.
Proof.
  revert s. induction (N.lt_wf_0 x) as [x _ IH]; intros s Hx.
  assert (x < 10 ∨ 10 ≤ x)%N as [Hlt|Hge] by lia.
  - rewrite pretty_N_go_step by done.
    replace (x `div` 10)%N with 0%N by (symmetry; apply N.div_small; lia).
    rewrite pretty_N_go_0.
    replace (x `mod` 10)%N with x by (symmetry; apply N.mod_small; lia).
    assert (x = 1 ∨ x = 2 ∨ x = 3 ∨ x = 4 ∨ x = 5 ∨ x = 6 ∨ x = 7 ∨ x = 8
            ∨ x = 9)%N as Hx9 by lia.
    by repeat destruct Hx9 as [->|Hx9]; [..|subst x].
  - rewrite pretty_N_go_step by done. apply IH.
    + apply N.div_lt; lia.
    + apply N.div_str_pos. lia.
Qed.

Lemma strip_zeros_str (k : Z) :
  0 ≤ k → strip_zeros (Py.str k) = if decide (k = 0) then "" else Py.str k.
Proof.
  intros Hk. destruct k as [|p|p]; [done| |lia].
  case_decide; [done|]. unfold Py.str, pretty, pretty_Z, pretty, pretty_positive,
    pretty, pretty_N.
  case_decide; [done|]. by apply strip_zeros_pretty_N_go.
Qed.

Lemma format_0d_inj (w : nat) (j k : Z) :
  0 ≤ j → 0 ≤ k → Py.format_0d w j = Py.format_0d w k → j = k.
Proof.
  intros Hj Hk. unfold Py.format_0d.
  replace (j <? 0) with false by (symmetry; apply Z.ltb_ge; lia).
  replace (k <? 0) with false by (symmetry; apply Z.ltb_ge; lia).
  unfold Py.zfill. intros Heq. apply (f_equal strip_zeros) in Heq.
  rewrite !strip_zeros_zeros in Heq.
  change (pretty j) with (Py.str j) in Heq. change (pretty k) with (Py.str k) in Heq.
  rewrite !strip_zeros_str in Heq by done.
  repeat case_decide; try lia.
  - symmetry in Heq. by apply PyFacts.str_nonempty in Heq.
  - by apply PyFacts.str_nonempty in Heq.
  - by apply PyFacts.str_inj.
Qed.

(** [f"GROUP_{group_num:03d}"]. *)
Definition group_name (group_num : Z) : string :=
  "GROUP_" +:+ Py.format_0d 3 group_num.

Lemma group_name_inj (j k : Z) :
  0 ≤ j → 0 ≤ k → group_name j = group_name k → j = k.
Proof.
  intros Hj Hk Heq. unfold group_name in Heq.
  apply append_inv_head in Heq. by apply (format_0d_inj 3).
Qed.

Lemma copies_of_base (base d : record) (n : Z) :
  d ∈ create_duplicate_records base n →
  same_data d base ∧ ∃ k, 1 ≤ k ≤ n ∧ record_id d = duplicate_id base k.
Proof.
  unfold create_duplicate_records.
  intros (i & -> & Hi%elem_of_seqZ)%list_elem_of_fmap.
  split; [by repeat split|]. exists (i + 1). split; [lia|done].
Qed.


(** *** The counts of the report *)

(** The records of group [g] among [records]. *)
Definition members (g : string) (records : list record) : Z :=
  Z.of_nat (length (filter (λ r, group_id r = g) records)).

Definition surplus (_ : string) (count acc : Z) : Z :=
  if 1 <? count then acc + (count - 1) else acc.

Lemma surplus_comm (j1 j2 : string) (z1 z2 y : Z) :
  surplus j1 z1 (surplus j2 z2 y) = surplus j2 z2 (surplus j1 z1 y).
Proof. unfold surplus. repeat case_match; lia. Qed.

Lemma surplus_positive (j : string) (count acc : Z) :
  1 ≤ count → surplus j count acc = acc + (count - 1).
Proof. intros Hc. unfold surplus. case_match; lia. Qed.

Lemma members_snoc (g : string) (records : list record) (r : record) :
  members g (records ++ [r]) =
  members g records + (if decide (group_id r = g) then 1 else 0).
Proof.
  unfold members. rewrite filter_app, length_app, filter_cons, filter_nil.
  case_decide; cbn [length]; lia.
Qed.

Lemma group_counts_invariant (records : list record) :
  let m := group_counts records in
  (∀ g, m !! g = if decide (members g records = 0) then None
                 else Some (members g records)) ∧
  map_fold surplus 0 m = Z.of_nat (length records) - Z.of_nat (size m) ∧
  dom m = list_to_set (group_id <$> records).
Proof.
  induction records as [|r records IH] using rev_ind; [done|].
  cbn zeta in *. destruct IH as (Hlookup & Hfold & Hdom).
  unfold group_counts in *. rewrite foldl_snoc.
  set (m := foldl count_record ∅ records) in *.
  unfold count_record. set (k := group_id r).
  assert (0 ≤ members k records) as Hk0 by (unfold members; lia).
  split_and!.
  - intros g. rewrite members_snoc. fold k.
    destruct (decide (k = g)) as [<-|Hne].
    + rewrite lookup_insert_eq, Hlookup.
      repeat case_decide; cbn [default]; unfold id; try lia; f_equal; lia.
    + rewrite lookup_insert_ne by done. rewrite Hlookup, Z.add_0_r. done.
  - rewrite length_app, Nat2Z.inj_add. cbn [length].
    specialize (Hlookup k). destruct (m !! k) as [c|] eqn:Hmk; cbn [default].
    + case_decide; [done|]. injection Hlookup as ->.
      rewrite map_size_insert_Some by done.
      rewrite (map_fold_delete_L surplus 0 k (members k records) m) in Hfold;
        [|intros; apply surplus_comm|done].
      rewrite <- insert_delete_eq.
      rewrite map_fold_insert_L;
        [|intros; apply surplus_comm|apply lookup_delete_eq].
      rewrite surplus_positive in Hfold by lia. unfold id.
      rewrite surplus_positive by lia. lia.
    + rewrite map_size_insert_None by done.
      rewrite map_fold_insert_L; [|intros; apply surplus_comm|done].
      unfold surplus at 1. change (1 <? 0 + 1) with false. cbn beta iota. lia.
  - rewrite dom_insert_L, Hdom, fmap_app, list_to_set_app_L.
    cbn [fmap list_fmap]. rewrite list_to_set_singleton_L. apply (comm_L (∪)).
Qed.

(** X7.  The report of [main], for any list of records: the count kept
    for a group is the number of its records; "Groups with duplicates"
    counts the groups that have more than one record; and "Total
    duplicate records" is the number of records minus the number of
    groups.  Records that share a group are counted as duplicates whether
    or not one is a copy of another. *)
Theorem report_counts (records : list record) :
  (∀ g c, group_counts records !! g = Some c ↔
          c = members g records ∧ 0 < c) ∧
  (∀ g, is_Some (filter (λ kv : string * Z, 1 < kv.2) (group_counts records) !! g)
        ↔ 1 < members g records) ∧
  total_duplicates records =
    Z.of_nat (length records) - Z.of_nat (unique_groups records).
Proof.
  destruct (group_counts_invariant records) as (Hlookup & Hfold & Hdom).
  assert (∀ g, 0 ≤ members g records) as Hpos by (intros g; unfold members; lia).
  split_and!.
  - intros g c. rewrite Hlookup. specialize (Hpos g).
    case_decide; split; try done; try lia.
    + intros [= <-]. lia.
    + by intros [-> _].
  - intros g. unfold is_Some. setoid_rewrite map_lookup_filter_Some.
    rewrite Hlookup. specialize (Hpos g). cbn. split.
    + intros (c & Hc & Hlt). case_decide; [done|]. by injection Hc as <-.
    + intros Hlt. exists (members g records). case_decide; [lia|done].
  - unfold total_duplicates, unique_groups. fold surplus.
    by rewrite Hfold, <- Hdom, size_dom.
Qed.

Section Records.
Context {W : Type} `{PyRandom W}.

Lemma generate_record_ok (now : Z) (gid : string) (c : Z) (w : W) :
  record_ok now gid (fst (generate_record now gid c w)) ∧
  record_id (fst (generate_record now gid c w)) = IntId c.
Proof.
  destruct (generate_record_nulls now gid c w)
    as (w1 & w2 & w3 & w4 & w5 & w6 & w7 & w8 & w9 & w10 & w11 & name0 &
        department0 & age0 & salary0 & days_ago & active0 & x & u_age &
        u_salary & u_rating & u_department & E1 & E2 & E3 & _ & E5 & E6 & E7 &
        _ & _ & _ & _ & -> & _).
  cbn [fst]. split; [|done]. unfold record_ok. cbn. split_and!.
  - done.
  - pose proof (RandomFacts.choice_elem NAMES w ltac:(done)) as Hc.
    by rewrite E1 in Hc.
  - intros a Ha. pose proof (RandomFacts.randint_range 22 65 w1 ltac:(lia)) as Hr.
    rewrite E2 in Hr. destruct (Py.Qltb u_age 0.1); by simplify_eq.
  - intros s Hs.
    pose proof (RandomFacts.randint_range 30000 150000 w2 ltac:(lia)) as Hr.
    rewrite E3 in Hr. destruct (Py.Qltb u_salary 0.05); by simplify_eq.
  - exists days_ago. split; [|done].
    pose proof (RandomFacts.randint_range 0 730 w6 ltac:(lia)) as Hr.
    by rewrite E7 in Hr.
  - intros d Hd. pose proof (RandomFacts.choice_elem DEPARTMENTS w4 ltac:(done)) as Hc.
    rewrite E5 in Hc. destruct (Py.Qltb u_department 0.03); by simplify_eq.
  - intros y Hy.
    destruct (RandomFacts.uniform_range 1.0 5.0 w5 ltac:(done)) as [Hlo Hhi].
    rewrite E6 in Hlo, Hhi. cbn [fst] in Hlo, Hhi.
    destruct (Py.Qltb u_rating 0.08); [done|]. injection Hy as <-.
    apply round1_tenths.
    + by apply (Qle_trans _ 1.0).
    + by apply (Qle_trans _ 5.0).
Qed.

(** X4.  A record made by [generate_record] carries the group and the
    counter value it was given, a name of [NAMES], an age in 22..65 or
    [None], a salary in 30000..150000 or [None], a department of
    [DEPARTMENTS] or [None], a creation date between 730 days before the
    clock date and the clock date, and a rating that is [None] or a
    number of tenths from 1.0 to 5.0, written with one decimal. *)
Theorem record_fields_in_range (now : Z) (gid : string) (c : Z) (w : W) :
  let r := fst (generate_record now gid c w) in
  group_id r = gid ∧ record_id r = IntId c ∧
  name r ∈ NAMES ∧
  (age r = None ∨ ∃ a, age r = Some a ∧ 22 ≤ a ≤ 65) ∧
  (salary r = None ∨ ∃ s, salary r = Some s ∧ 30000 ≤ s ≤ 150000) ∧
  (department r = None ∨ ∃ d, department r = Some d ∧ d ∈ DEPARTMENTS) ∧
  (∃ days_ago,
     0 ≤ days_ago ≤ 730 ∧ created_date r = Py.strftime_Ymd (now - days_ago)) ∧
  (rating r = None ∨
   ∃ x h, rating r = Some x ∧ 10 ≤ h ≤ 50 ∧ (x == inject_Z h / 10)%Q ∧
          Py.str_float x = Py.fixed 1 false h).
Proof.
  intros r.
  destruct (generate_record_ok now gid c w)
    as [(Hgid & Hname & Hage & Hsalary & Hdate & Hdept & Hrating) Hid].
  fold r in Hgid, Hname, Hage, Hsalary, Hdate, Hdept, Hrating, Hid.
  split_and!; try done.
  - destruct (age r) as [a|]; [right|by left]. exists a. split; [done|by apply Hage].
  - destruct (salary r) as [s|]; [right|by left].
    exists s. split; [done|by apply Hsalary].
  - destruct (department r) as [d|]; [right|by left].
    exists d. split; [done|by apply Hdept].
  - destruct (rating r) as [x|]; [right|by left].
    destruct (Hrating x eq_refl) as (h & Hh & Hx & Hstr). by exists x, h.
Qed.

Lemma base_records_Forall (P : record → Prop) (now : Z) (gid : string)
    (indices : list Z) (acc : list record) (c : Z) (w : W) :
  (∀ c' w', P (fst (generate_record now gid c' w'))) →
  ∃ new : list record,
    (fst (base_records now gid indices acc c w)).1 = acc ++ new ∧
    length new = length indices ∧
    Forall P new.
Proof.
  intros HP. revert acc c w. induction indices as [|i rest IH]; intros acc c w.
  - exists []. cbn. by rewrite app_nil_r.
  - cbn [base_records]. unfold bind.
    pose proof (HP c w) as Hr.
    destruct (generate_record now gid c w) as [r w1]. cbn [fst] in Hr.
    destruct (IH (acc ++ [r]) (c + 1) w1) as (new & -> & Hlen & Hnew).
    exists (r :: new). split_and!.
    + by rewrite <- app_assoc.
    + cbn [length]. by rewrite Hlen.
    + by constructor.
Qed.

(** A group as [generate_large_dataset] assembles it. *)
Definition group_ok (now : Z) (group_num : Z) (g : list record) : Prop :=
  ∃ bases duplicates : list record,
    g = bases ++ duplicates ∧
    (1 ≤ length bases ≤ 50)%nat ∧
    Forall (λ r, record_ok now ("GROUP_" +:+ Py.format_0d 3 group_num) r ∧
                 ∃ c, record_id r = IntId c) bases ∧
    (duplicates = [] ∨
     ∃ (base : record) (n : Z),
       base ∈ bases ∧ 1 ≤ n ≤ 5 ∧
       duplicates = create_duplicate_records base n).

Lemma group_ok_facts (now group_num : Z) (g : list record) :
  group_ok now group_num g →
  (1 ≤ length g ≤ 55)%nat ∧
  Forall (λ r, group_id r = group_name group_num) g.
Proof.
  intros (bases & duplicates & -> & Hlen & Hbases & Hdups). split.
  - rewrite length_app.
    destruct Hdups as [->|(base & n & _ & Hn & ->)]; [cbn; lia|].
    rewrite create_duplicate_records_length. lia.
  - assert (Forall (λ r, group_id r = group_name group_num) bases) as Hgid.
    { eapply Forall_impl; [exact Hbases|]. by intros r [(Hg & _) _]. }
    apply Forall_app. split; [done|].
    destruct Hdups as [->|(base & n & Hin & _ & ->)]; [constructor|].
    rewrite Forall_forall in Hgid. apply Forall_forall.
    intros d [(Hg & _) _]%copies_of_base. rewrite Hg. by apply Hgid.
Qed.

(** *** The file [write_csv] writes *)

Definition cells_unquoted (r : record) : Prop := Forall unquoted (cells r).

Lemma group_name_unquoted (k : Z) : unquoted (group_name k).
Proof.
  unfold group_name. apply unquoted_app; [done|].
  apply plain_unquoted, format_0d_plain.
Qed.

Lemma record_ok_cells (now k : Z) (r : record) :
  record_ok now (group_name k) r → (∃ c, record_id r = IntId c) →
  cells_unquoted r.
Proof.
  intros (Hgid & Hname & _ & _ & (d & _ & Hdate) & Hdept & _) (c & Hid).
  unfold cells_unquoted, cells. rewrite Hgid, Hdate, Hid.
  repeat apply Forall_cons_2; [..|apply Forall_nil_2].
  - apply group_name_unquoted.
  - eapply (Forall_forall unquoted NAMES); [by repeat constructor|done].
  - destruct (age r); [apply str_unquoted|done].
  - destruct (salary r); [apply str_unquoted|done].
  - by destruct (is_active r).
  - apply plain_unquoted, strftime_plain.
  - destruct (department r) as [dep|]; [|done]. cbn [default].
    eapply (Forall_forall unquoted DEPARTMENTS); [by repeat constructor|].
    by apply Hdept.
  - destruct (rating r); [apply format_f_unquoted|done].
  - apply str_unquoted.
Qed.

Lemma copy_cells (base d : record) (n : Z) :
  d ∈ create_duplicate_records base n → cells_unquoted base → cells_unquoted d.
Proof.
  unfold create_duplicate_records.
  intros (i & -> & _)%list_elem_of_fmap. unfold cells_unquoted, cells.
  cbn [set_record_id group_id name age salary is_active created_date
       department rating record_id format_ident].
  intros Hbase.
  repeat (apply Forall_cons in Hbase as [? Hbase]).
  repeat apply Forall_cons_2; [done..| |apply Forall_nil_2].
  apply unquoted_app; [done|]. apply unquoted_app; [done|apply str_unquoted].
Qed.

Lemma group_ok_cells (now k : Z) (g : list record) :
  group_ok now k g → Forall cells_unquoted g.
Proof.
  intros (bases & duplicates & -> & _ & Hbases & Hdups).
  assert (Forall cells_unquoted bases) as Hb.
  { eapply Forall_impl; [exact Hbases|]. intros r [Hok Hid].
    by eapply record_ok_cells. }
  apply Forall_app. split; [done|].
  destruct Hdups as [->|(base & n & Hin & _ & ->)]; [constructor|].
  rewrite Forall_forall in Hb. apply Forall_forall. intros d Hd.
  eapply copy_cells; [exact Hd|by apply Hb].
Qed.

Lemma generate_group_ok (now group_num c : Z) (w : W) :
  group_ok now group_num (fst (generate_group now group_num c w)).1.
Proof.
  unfold generate_group, bind.
  pose proof (RandomFacts.randint_range 1 50 w ltac:(lia)) as Hsize.
  destruct (Random.randint 1 50 w) as [group_size w1]. cbn [fst] in Hsize.
  set (gid := "GROUP_" +:+ Py.format_0d 3 group_num).
  destruct (base_records_Forall
              (λ r, record_ok now gid r ∧ ∃ c, record_id r = IntId c)
              now gid (seqZ 0 group_size) [] c w1)
    as (bases & Hb & Hlen & Hok).
  { intros c' w'. destruct (generate_record_ok now gid c' w') as [? ?]. eauto. }
  destruct (base_records _ _ _ _ _ w1) as [[group_records c'] w2].
  cbn [fst snd app] in Hb. subst group_records.
  rewrite length_seqZ in Hlen.
  destruct (random_random w2) as [u w3].
  destruct (Py.Qltb u DUPLICATE_RATIO).
  - pose proof (RandomFacts.choice_elem bases w3) as Hbase.
    destruct (Random.choice bases w3) as [base w4]. cbn [fst] in Hbase.
    pose proof (RandomFacts.randint_range 1 5 w4 ltac:(lia)) as Hn.
    destruct (Random.randint 1 5 w4) as [n w5]. cbn [fst snd ret] in *.
    exists bases, (create_duplicate_records base n).
    split_and!; try done; try lia.
    right. exists base, n. split_and!; try done; try lia.
    apply Hbase. intros ->. cbn in Hlen. lia.
  - exists bases, []. cbn [ret fst snd].
    rewrite app_nil_r. split_and!; try done; try lia. by left.
Qed.

Lemma generate_groups_ok (now : Z) (group_nums : list Z)
    (records : list record) (c : Z) (w : W) :
  ∃ groups : list (list record),
    (fst (generate_groups now group_nums records c w)).1 =
      records ++ concat groups ∧
    Forall2 (group_ok now) group_nums groups.
Proof.
  revert records c w. induction group_nums as [|g rest IH]; intros records c w.
  - exists []. cbn. by rewrite app_nil_r.
  - cbn [generate_groups]. unfold bind.
    pose proof (generate_group_ok now g c w) as Hg.
    destruct (generate_group now g c w) as [[group_records c'] w1].
    cbn [fst snd] in Hg.
    destruct (IH (records ++ group_records) c' w1) as (groups & -> & Hgroups).
    exists (group_records :: groups). split.
    + cbn [concat]. by rewrite app_assoc.
    + by constructor.
Qed.

(** The dataset before the shuffle is the concatenation of its groups. *)
Lemma unshuffled_dataset_groups (now num_groups : Z) (w : W) :
  ∃ groups : list (list record),
    fst (unshuffled_dataset now num_groups w) = concat groups ∧
    Forall2 (group_ok now) (seqZ 0 num_groups) groups.
Proof.
  unfold unshuffled_dataset, bind, ret.
  destruct (generate_groups_ok now (seqZ 0 num_groups) [] 1 w)
    as (groups & Hrecords & Hgroups).
  destruct (generate_groups now (seqZ 0 num_groups) [] 1 w) as [[records c] w1].
  cbn [fst snd app] in *. by exists groups.
Qed.

Lemma elem_of_concat (r : record) (groups : list (list record)) :
  r ∈ concat groups ↔ ∃ g, r ∈ g ∧ g ∈ groups.
Proof.
  induction groups as [|g groups IH]; cbn [concat].
  - split; [by intros ?%elem_of_nil|]. by intros (g & _ & ?%elem_of_nil).
  - rewrite elem_of_app, IH. split.
    + intros [Hr|(g' & Hr & Hg')]; [exists g; split; [done|by left]|].
      exists g'. split; [done|by right].
    + intros (g' & Hr & [->|Hg']%elem_of_cons); [by left|right; by exists g'].
Qed.

Lemma concat_length_bounds (groups : list (list record)) (a b : nat) :
  Forall (λ g, (a ≤ length g ≤ b)%nat) groups →
  (a * length groups ≤ length (concat groups) ≤ b * length groups)%nat.
Proof.
  induction 1 as [|g groups Hg _ IH]; [cbn; lia|].
  cbn [concat length]. rewrite length_app. lia.
Qed.

Lemma dataset_nonempty (now num_groups : Z) (w : W) :
  0 < num_groups → fst (generate_dataset now num_groups w) ≠ [].
Proof.
  intros Hn Hnil. apply (f_equal length) in Hnil.
  rewrite (Permutation_length (generate_dataset_perm now num_groups w)) in Hnil.
  destruct (unshuffled_dataset_groups now num_groups w) as (groups & Hrec & Hgroups).
  rewrite Hrec in Hnil. rewrite seqZ_cons in Hgroups by done.
  apply Forall2_cons_inv_l in Hgroups as (g & groups' & Hg & _ & ->).
  apply group_ok_facts in Hg as [Hlen _].
  cbn [concat] in Hnil. rewrite length_app in Hnil. cbn in Hnil. lia.
Qed.

(** X5.  A dataset of [num_groups] groups has between [num_groups] and
    [55 * num_groups] records: every group brings 1 to 50 base records and
    at most 5 copies.  With the 500 groups of the script that is 500 to
    27500 records; [NUM_RECORDS] plays no part.  With at least one group
    the dataset is not empty, so the ratio [main] prints is defined. *)
Theorem dataset_size (now num_groups : Z) (w : W) :
  0 ≤ num_groups →
  let records := fst (generate_dataset now num_groups w) in
  num_groups ≤ Z.of_nat (length records) ≤ 55 * num_groups ∧
  (0 < num_groups → is_Some (duplicate_ratio records)).
Proof.
  intros Hn records.
  assert (num_groups ≤ Z.of_nat (length records) ≤ 55 * num_groups) as Hsize.
  { subst records.
    rewrite (Permutation_length (generate_dataset_perm now num_groups w)).
    destruct (unshuffled_dataset_groups now num_groups w)
      as (groups & -> & Hgroups).
    pose proof (Forall2_length _ _ _ Hgroups) as Hlen.
    rewrite length_seqZ in Hlen.
    assert (Forall (λ g, (1 ≤ length g ≤ 55)%nat) groups) as Hsizes.
    { apply Forall_forall. intros g Hg.
      apply list_elem_of_lookup in Hg as [i Hi].
      destruct (Forall2_lookup_r _ _ _ _ _ Hgroups Hi) as (k & _ & Hk).
      by apply group_ok_facts in Hk as [? _]. }
    apply concat_length_bounds in Hsizes. lia. }
  split; [done|]. intros Hpos. clearbody records.
  destruct records as [|r rest]; [cbn in Hsize; lia|]. by eexists.
Qed.

(** X6.  The group identifiers occurring in the dataset are exactly
    [GROUP_000], [GROUP_001], ... for the group numbers below
    [num_groups]: no group is empty and group names do not collide, so
    the count of unique groups [main] prints is the number of groups. *)
Theorem dataset_group_ids (now num_groups : Z) (w : W) :
  let records := fst (generate_dataset now num_groups w) in
  (∀ g : string,
     g ∈ group_id <$> records ↔
     ∃ k : Z, 0 ≤ k < num_groups ∧ g = "GROUP_" +:+ Py.format_0d 3 k) ∧
  unique_groups records = Z.to_nat num_groups.
Proof.
  intros records.
  assert (∀ g : string,
            g ∈ group_id <$> records ↔ g ∈ group_name <$> seqZ 0 num_groups)
    as Hids.
  { intros g. subst records.
    rewrite (generate_dataset_perm now num_groups w).
    destruct (unshuffled_dataset_groups now num_groups w)
      as (groups & -> & Hgroups).
    rewrite !list_elem_of_fmap. split.
    - intros (r & -> & Hr). apply elem_of_concat in Hr as (grp & Hr & Hgrp).
      apply list_elem_of_lookup in Hgrp as [i Hi].
      destruct (Forall2_lookup_r _ _ _ _ _ Hgroups Hi) as (k & Hk & Hok).
      apply group_ok_facts in Hok as [_ Hgid].
      rewrite Forall_forall in Hgid. exists k. split; [by apply Hgid|].
      by eapply list_elem_of_lookup_2.
    - intros (k & -> & Hk). apply list_elem_of_lookup in Hk as [i Hi].
      destruct (Forall2_lookup_l _ _ _ _ _ Hgroups Hi) as (grp & Hgrp & Hok).
      apply group_ok_facts in Hok as [Hlen Hgid].
      destruct grp as [|r grp]; [cbn in Hlen; lia|].
      apply Forall_cons in Hgid as [Hr _]. exists r. split; [done|].
      apply elem_of_concat. exists (r :: grp).
      split; [by left | by eapply list_elem_of_lookup_2]. }
  split.
  - intros g. rewrite Hids, list_elem_of_fmap. unfold group_name.
    split; intros (k & Hg & Hk); exists k.
    + rewrite elem_of_seqZ in Hk. split; [lia|done].
    + split; [tauto|]. rewrite elem_of_seqZ. lia.
  - unfold unique_groups.
    replace (list_to_set (group_id <$> records) : gset string)
      with (list_to_set (group_name <$> seqZ 0 num_groups) : gset string).
    + rewrite size_list_to_set, length_fmap, length_seqZ; [done|].
      apply NoDup_fmap_2_strong; [|apply NoDup_seqZ].
      intros j k Hj%elem_of_seqZ Hk%elem_of_seqZ. apply group_name_inj; lia.
    + apply set_eq. intros g. rewrite !elem_of_list_to_set. symmetry. apply Hids.
Qed.

Lemma dataset_cells_unquoted (now num_groups : Z) (w : W) :
  Forall cells_unquoted (fst (generate_dataset now num_groups w)).
Proof.
  rewrite (generate_dataset_perm now num_groups w).
  destruct (unshuffled_dataset_groups now num_groups w) as (groups & -> & Hgroups).
  apply Forall_forall. intros r (g & Hr & Hg)%elem_of_concat.
  apply list_elem_of_lookup in Hg as [i Hi].
  destruct (Forall2_lookup_r _ _ _ _ _ Hgroups Hi) as (k & _ & Hok).
  apply group_ok_cells in Hok. rewrite Forall_forall in Hok. by apply Hok.
Qed.

Lemma dataset_empty (now num_groups : Z) (w : W) :
  num_groups ≤ 0 → fst (generate_dataset now num_groups w) = [].
Proof.
  intros Hn. apply Permutation_nil_r.
  rewrite (generate_dataset_perm now num_groups w).
  destruct (unshuffled_dataset_groups now num_groups w) as (groups & -> & Hgroups).
  rewrite seqZ_nil in Hgroups by done. by apply Forall2_nil_inv_l in Hgroups as ->.
Qed.

Definition header_line : string :=
  "group_id,name,age,salary,is_active,created_date,department,rating,record_id".

(** X8.  [write_csv] on the generated dataset.  With no group there is no
    record and no file is written.  Otherwise the file is the header line
    followed by one line per record, in the order of the records, all
    ending in CRLF; no value needs quoting, so a record's line is its nine
    values joined by commas ([None] as the empty string), and splitting the
    line at the commas gives the nine values back. *)
Theorem written_csv (now num_groups : Z) (w : W) :
  let records := fst (generate_dataset now num_groups w) in
  write_csv records =
    (if decide (0 < num_groups) then
       Some (header_line +:+ Csv.lineterminator +:+
             Py.concat_strings
               ((λ r, Csv.join "," (cells r) +:+ Csv.lineterminator) <$> records))
     else None) ∧
  Forall (λ r, length (cells r) = 9%nat ∧
               split_commas (Csv.join "," (cells r)) = cells r) records.
Proof.
  intros records.
  pose proof (dataset_cells_unquoted now num_groups w) as Hcells.
  pose proof (dataset_nonempty now num_groups w) as Hsize.
  pose proof (dataset_empty now num_groups w) as Hempty.
  fold records in Hcells, Hsize, Hempty.
  clearbody records. split.
  - case_decide as Hn; [|by rewrite Hempty by lia].
    specialize (Hsize ltac:(lia)). unfold write_csv.
    replace (Csv.writerow ∘ cells <$> records)
      with ((λ r, Csv.join "," (cells r) +:+ Csv.lineterminator) <$> records).
    2: { apply Forall_fmap_ext_1. eapply Forall_impl; [exact Hcells|].
         intros r Hr. cbn [compose]. symmetry.
         apply writerow_unquoted; [cbn; lia | exact Hr]. }
    destruct records as [|r rest]; [done|].
    change (Csv.writerow fieldnames) with (header_line +:+ Csv.lineterminator).
    by rewrite append_assoc.
  - eapply Forall_impl; [exact Hcells|]. intros r Hr. split; [done|].
    by apply split_join.
Qed.

End Records.

Lemma dataset_size_witness :
  let records :=
    fst (generate_dataset (Py.date 2024 1 1) NUM_GROUPS
           LargeDatasetProps.script_run) in
  NUM_GROUPS ≤ Z.of_nat (length records) ≤ 55 * NUM_GROUPS ∧
  (0 < NUM_GROUPS → is_Some (duplicate_ratio records)).
Proof.
  apply (dataset_size (Py.date 2024 1 1) NUM_GROUPS
           LargeDatasetProps.script_run).
  by vm_compute.
Defined.

End LargeDatasetMore.
